(** * EcoLive dashboard (script.js): entity model, persistence adapter,
      manage list, toggle controller and weather classification.

    The development follows the layout of [script.js]:
    - [Js]: the fragment of the JavaScript runtime the script relies on
      (dynamically typed primitive values, truthiness, string methods,
      binary64 numbers, JSON text round trip);
    - the [Sensor] / [TemperatureSensor] classes and their [toJSON];
    - the page state and a small state-and-exception monad in which the
      storage helpers, [renderManageList], the delete handler,
      [toggleSensor] and [renderCityView] are written;
    - the properties of the specification, stated on these definitions.

    [display], [randomValueForDemo] and [resolveCityCoords] are never called
    by the script and are left out, as are the theme toggle and the login
    gate of [auth.js], which do not touch the sensors. *)

From stdpp Require Import gmap strings list fin_maps pretty.
From Stdlib Require Import Ascii SpecFloat.

Open Scope string_scope.
Open Scope list_scope.

(** ** The JavaScript runtime fragment *)

Module Js.

(** A JS Number is an IEEE-754 binary64 value. *)
Abbreviation number := spec_float.

Definition num_of_Z (z : Z) : number := binary_normalize 53 1024 z 0 false.

(** Primitive values.  Stored records and entity fields only ever hold
    primitives in this program. *)
Inductive jsval : Type :=
| JUndefined
| JNull
| JBool (b : bool)
| JNum (x : number)
| JStr (s : string).

#[global] Instance number_eq_dec : EqDecision number.
Proof. solve_decision. Defined.

#[global] Instance jsval_eq_dec : EqDecision jsval.
Proof. solve_decision. Defined.

(** ToBoolean. *)
Definition truthy (v : jsval) : bool :=
  match v with
  | JUndefined | JNull => false
  | JBool b => b
  | JNum (S754_zero _) | JNum S754_nan => false
  | JNum _ => true
  | JStr EmptyString => false
  | JStr _ => true
  end.

(** [a || b] *)
Definition js_or (a b : jsval) : jsval := if truthy a then a else b.

(** [a ?? b] *)
Definition js_nullish (a b : jsval) : jsval :=
  match a with JUndefined | JNull => b | _ => a end.

(** A default parameter value [p = d] replaces an [undefined] argument only. *)
Definition param_default (d v : jsval) : jsval :=
  match v with JUndefined => d | _ => v end.

(** Outcome of an evaluation that may throw. *)
Inductive result (A : Type) : Type :=
| Ok (a : A)
| TypeError.
Arguments Ok {A} a.
Arguments TypeError {A}.

#[global] Instance result_ret : MRet result := λ A a, Ok a.
#[global] Instance result_bind : MBind result := λ A B f m,
  match m with Ok a => f a | TypeError => TypeError end.

(** String.prototype.toLowerCase.  Strings are sequences of bytes; the
    letters A to Z are lowered and every other byte is left as it is, so
    letters outside ASCII keep their case. *)
Definition lower_ascii (c : ascii) : ascii :=
  let n := N_of_ascii c in
  if ((65 <=? n) && (n <=? 90))%N then ascii_of_N (n + 32) else c.

Fixpoint toLowerCase (s : string) : string :=
  match s with
  | EmptyString => EmptyString
  | String c s' => String (lower_ascii c) (toLowerCase s')
  end.

(** String.prototype.includes: [includes s t] is [s.includes(t)]. *)
Fixpoint includes (s t : string) : bool :=
  String.prefix t s ||
  match s with
  | EmptyString => false
  | String _ s' => includes s' t
  end.

(** [v.toLowerCase()] on a dynamically typed receiver: only strings have the
    method; on [undefined]/[null] the property read throws, on numbers and
    booleans the call does. *)
Definition call_toLowerCase (v : jsval) : result string :=
  match v with JStr s => Ok (toLowerCase s) | _ => TypeError end.

(** [v.indexOf(t) !== -1] *)
Definition call_indexOf_found (v : jsval) (t : string) : result bool :=
  match v with JStr s => Ok (includes s t) | _ => TypeError end.

(** Math.floor *)
Definition Math_floor (x : number) : number :=
  match x with
  | S754_finite s m e =>
      if (0 <=? e)%Z then x
      else binary_normalize 53 1024
             (Z.shiftr (cond_Zopp s (Z.pos m)) (- e)) 0 false
  | _ => x
  end.

(** Number.prototype.toFixed(1): the decimal numeral of the integer [n]
    nearest to [10 * x] (the larger one on a tie), with the point before its
    last digit.  Magnitudes from 10^21 on, which JS prints in exponent
    notation, do not reach the only call site (its argument lies in
    [6, 9]); the sign of a zero is not printed. *)
Definition toFixed1 (x : number) : string :=
  match x with
  | S754_nan => "NaN"
  | S754_infinity s => if s then "-Infinity" else "Infinity"
  | S754_zero _ => "0.0"
  | S754_finite s m e =>
      let n := if (0 <=? e)%Z then (10 * Z.pos m * 2 ^ e)%Z
               else ((20 * Z.pos m + 2 ^ (- e)) / (2 * 2 ^ (- e)))%Z in
      (if s then "-" else "") +:+ pretty (n / 10)%Z +:+ "." +:+ pretty (n mod 10)%Z
  end.

(** A plain JS object, as a finite map from property names to values. *)
Abbreviation object := (gmap string jsval).

(** Property read [obj.k]: [undefined] when the property is absent. *)
Definition get (obj : object) (k : string) : jsval := default JUndefined (obj !! k).

(** What a property value becomes through [JSON.stringify] followed by
    [JSON.parse]: an [undefined] property is omitted, NaN and the infinities
    are written as [null], and a zero is written without its sign.  Every
    other primitive is read back as it was. *)
Definition json_value (v : jsval) : option jsval :=
  match v with
  | JUndefined => None
  | JNum S754_nan | JNum (S754_infinity _) => Some JNull
  | JNum (S754_zero _) => Some (JNum (S754_zero false))
  | _ => Some v
  end.

Definition json_roundtrip (o : object) : object := omap json_value o.

End Js.
Export Js.

(** ** OOP: Sensor classes *)

(** Fields of a [Sensor]; [sname] and [svalue] are the private [#name] and
    [#value]. *)
Record Sensor : Type := mkSensor {
  sname : jsval;
  svalue : jsval;
  description : jsval;
  city : jsval;
  lat : jsval;
  lon : jsval
}.

(** An instance is either a plain [Sensor] or a [TemperatureSensor], which
    adds the public [unit] field. *)
Inductive instance : Type :=
| Base (s : Sensor)
| Temperature (s : Sensor) (u : jsval).

Definition sensor_of (e : instance) : Sensor :=
  match e with Base s => s | Temperature s _ => s end.
Coercion sensor_of : instance >-> Sensor.

#[global] Instance Sensor_eq_dec : EqDecision Sensor.
Proof. solve_decision. Defined.

#[global] Instance instance_eq_dec : EqDecision instance.
Proof. solve_decision. Defined.

(** [constructor(name, value, desc = "", city = "", lat = null, lon = null)] *)
Definition new_Sensor (name value desc cty la lo : jsval) : Sensor :=
  {| sname := name;
     svalue := value;
     description := param_default (JStr "") desc;
     city := param_default (JStr "") cty;
     lat := param_default JNull la;
     lon := param_default JNull lo |}.

(** [constructor(name, value, desc, city, lat, lon, unit = "°C")] *)
Definition new_TemperatureSensor (name value desc cty la lo u : jsval) : instance :=
  Temperature (new_Sensor name value desc cty la lo) (param_default (JStr "°C") u).

Definition getName (e : instance) : jsval := sname e.
Definition getValue (e : instance) : jsval := svalue e.

Definition setValue (v : jsval) (e : instance) : instance :=
  let s := sensor_of e in
  let s' := {| sname := sname s; svalue := v; description := description s;
               city := city s; lat := lat s; lon := lon s |} in
  match e with Base _ => Base s' | Temperature _ u => Temperature s' u end.

(** [Sensor.prototype.toJSON] *)
Definition Sensor_toJSON (s : Sensor) : object :=
  <["lon" := lon s]> (<["lat" := lat s]> (<["city" := city s]>
  (<["description" := description s]> (<["value" := svalue s]>
  (<["name" := sname s]> ∅))))).

(** [toJSON], dispatched on the class of the instance. *)
Definition toJSON (e : instance) : object :=
  match e with
  | Base s => Sensor_toJSON s
  | Temperature s u =>
      <["type" := JStr "temperature"]> (<["unit" := u]> (Sensor_toJSON s))
  end.

(** ** The page: state, effects and the monad of the event handlers *)

Record checkbox : Type := mkCheckbox {
  cb_value : string;     (* the [value] attribute of the input element *)
  cb_checked : bool
}.

(** The [checkboxes] table: its four elements are looked up once, when the
    script loads. *)
Record checkbox_table : Type := mkCheckboxes {
  cbAir : checkbox;      (* "Air Quality" *)
  cbWater : checkbox;    (* "Water Quality" *)
  cbSoil : checkbox;     (* "Soil Quality" *)
  cbEco : checkbox       (* "Ecosystem Health" *)
}.

Record coord : Type := mkCoord { coord_lat : jsval; coord_lon : jsval }.

(** The fields of a current-weather response that the script reads. *)
Record weather : Type := mkWeather {
  w_coord : option coord;        (* data.coord *)
  w_temp : number;               (* data.main.temp *)
  w_humidity : number;           (* data.main.humidity *)
  w_main : string;               (* data.weather[0].main *)
  w_description : string;        (* data.weather[0].description *)
  w_icon : string;               (* data.weather[0].icon *)
  w_wind_speed : number;         (* data.wind.speed *)
  w_name : string;               (* data.name *)
  w_country : string             (* data.sys.country *)
}.

(** Effects on the outside of the script: dialogs, storage accesses, and the
    calls into the page, Chart.js and Leaflet. *)
Inductive event : Type :=
| EvAlert (msg : string)
| EvGetItem
| EvSetItem (records : list object)
| EvChart (labels data : list jsval) (colors : list string)
| EvMapClear
| EvMapMarkers (markers : list (jsval * jsval * instance))
| EvMapView (la lo : jsval) (zoom : nat)
| EvWeatherResult (data : option weather) (cty : string)
| EvWeatherAnalytics (status : option string)
| EvWeatherCircle (la lo color : jsval).

(** The text kept under [STORAGE_KEY] is represented by the array of records
    it parses to; [None] is an absent (or empty) item.  Text that is not a
    JSON array of flat records, on which [JSON.parse] or the callback of
    [getAllSensors] fails, is outside this type. *)
Record state : Type := mkState {
  localStorage : option (list object);
  currentCity : option string;
  currentWeatherData : option weather;
  checkboxes : checkbox_table;
  dataList : list instance;       (* rows of the manage list, in order *)
  rowSensors : list instance;     (* the array the rows' delete handlers share *)
  trace : list event
}.

Definition set_localStorage (v : option (list object)) (st : state) : state :=
  mkState v (currentCity st) (currentWeatherData st) (checkboxes st)
          (dataList st) (rowSensors st) (trace st).
Definition set_currentCity (v : option string) (st : state) : state :=
  mkState (localStorage st) v (currentWeatherData st) (checkboxes st)
          (dataList st) (rowSensors st) (trace st).
Definition set_currentWeatherData (v : option weather) (st : state) : state :=
  mkState (localStorage st) (currentCity st) v (checkboxes st)
          (dataList st) (rowSensors st) (trace st).
Definition set_checkboxes (v : checkbox_table) (st : state) : state :=
  mkState (localStorage st) (currentCity st) (currentWeatherData st) v
          (dataList st) (rowSensors st) (trace st).
Definition set_dataList (v : list instance) (st : state) : state :=
  mkState (localStorage st) (currentCity st) (currentWeatherData st) (checkboxes st)
          v (rowSensors st) (trace st).
Definition set_rowSensors (v : list instance) (st : state) : state :=
  mkState (localStorage st) (currentCity st) (currentWeatherData st) (checkboxes st)
          (dataList st) v (trace st).
Definition set_trace (v : list event) (st : state) : state :=
  mkState (localStorage st) (currentCity st) (currentWeatherData st) (checkboxes st)
          (dataList st) (rowSensors st) v.

(** A handler runs on the page state and either completes or throws; the
    state reached is kept in both cases. *)
Definition M (A : Type) : Type := state → result A * state.

#[global] Instance M_ret : MRet M := λ A a st, (Ok a, st).
#[global] Instance M_bind : MBind M := λ A B f m st,
  match m st with
  | (Ok a, st') => f a st'
  | (TypeError, st') => (TypeError, st')
  end.

Definition gets {A} (f : state → A) : M A := λ st, (Ok (f st), st).
Definition modify (f : state → state) : M unit := λ st, (Ok tt, f st).
Definition lift {A} (r : result A) : M A := λ st, (r, st).
Definition emit (e : event) : M unit :=
  modify (λ st, set_trace (trace st ++ [e]) st).

Definition exec {A} (m : M A) (st : state) : state := snd (m st).
Definition outcome {A} (m : M A) (st : state) : result A := fst (m st).

(** [m] never changes the component [proj] of the state. *)
Definition keeps {X A} (proj : state → X) (m : M A) : Prop :=
  ∀ st, proj (exec m st) = proj st.

(** ** Storage helpers (localStorage) *)

(** [JSON.parse(localStorage.getItem(STORAGE_KEY) || "[]")] *)
Definition readRawSensors : M (list object) :=
  emit EvGetItem;;
  gets (λ st, default [] (localStorage st)).

(** The test of the callback of [getAllSensors]:
    [obj.type === "temperature" ||
     (obj.name && obj.name.toLowerCase().includes("temp"))]. *)
Definition is_temperature (obj : object) : result bool :=
  if decide (get obj "type" = JStr "temperature") then Ok true
  else if truthy (get obj "name")
       then low ← call_toLowerCase (get obj "name"); Ok (includes low "temp")
       else Ok false.

(** The two [new] expressions of the callback of [getAllSensors]. *)
Definition construct (temp : bool) (obj : object) : instance :=
  if temp
  then new_TemperatureSensor (get obj "name") (get obj "value")
         (js_or (get obj "description") (JStr ""))
         (js_or (get obj "city") (JStr ""))
         (js_or (get obj "lat") JNull)
         (js_or (get obj "lon") JNull)
         (js_or (get obj "unit") (JStr "°C"))
  else Base (new_Sensor (get obj "name") (get obj "value")
         (js_or (get obj "description") (JStr ""))
         (js_or (get obj "city") (JStr ""))
         (js_or (get obj "lat") JNull)
         (js_or (get obj "lon") JNull)).

(** The callback of [getAllSensors]: one stored record to one instance. *)
Definition rehydrate (obj : object) : result instance :=
  temp ← is_temperature obj;
  Ok (construct temp obj).

Definition getAllSensors : M (list instance) :=
  raw ← readRawSensors;
  lift (mapM rehydrate raw).

(** The records that [JSON.parse] returns for the text
    [JSON.stringify(instances.map(s => s.toJSON()))]. *)
Definition stored_records (instances : list instance) : list object :=
  json_roundtrip <$> (toJSON <$> instances).

Definition saveAllSensors (instances : list instance) : M unit :=
  emit (EvSetItem (stored_records instances));;
  modify (set_localStorage (Some (stored_records instances))).

(** ** Manage Sensors UI *)

(** [renderManageList]: the list is rebuilt from a fresh [getAllSensors];
    every new row's delete handler closes over that one array and over the
    row's index. *)
Definition renderManageList : M unit :=
  sensors ← getAllSensors;
  modify (set_dataList sensors);;
  modify (set_rowSensors sensors).

(** ** Chart and map adapters *)

Definition updateChartForSensors (sensorArray : list instance) : M unit :=
  emit (EvChart (getName <$> sensorArray) (getValue <$> sensorArray)
                ((λ _, "#2e8b57") <$> sensorArray)).

(** [v != null] *)
Definition not_nullish (v : jsval) : bool :=
  match v with JUndefined | JNull => false | _ => true end.

Definition marker_of (focusLat focusLon : jsval) (s : instance)
  : option (jsval * jsval * instance) :=
  let la := js_nullish (lat s) focusLat in
  let lo := js_nullish (lon s) focusLon in
  if not_nullish la && not_nullish lo then Some (la, lo, s) else None.

Definition updateMapForSensors (sensorArray : list instance)
    (focusLat focusLon : jsval) : M unit :=
  let focusLat := param_default JNull focusLat in
  let focusLon := param_default JNull focusLon in
  emit EvMapClear;;
  match sensorArray with
  | [] =>
      if truthy focusLat && truthy focusLon
      then emit (EvMapView focusLat focusLon 8) else mret tt
  | first :: _ =>
      emit (EvMapMarkers (omap (marker_of focusLat focusLon) sensorArray));;
      if truthy (lat first) && truthy (lon first)
      then emit (EvMapView (lat first) (lon first) 10)
      else if truthy focusLat && truthy focusLon
           then emit (EvMapView focusLat focusLon 10) else mret tt
  end.

(** [s => s.city && s.city.toLowerCase() === c.toLowerCase()], used as a
    filter. *)
Definition in_city (c : string) (s : instance) : result bool :=
  if truthy (city s)
  then low ← call_toLowerCase (city s); Ok (bool_decide (low = toLowerCase c))
  else Ok false.

(** [Array.prototype.filter] with a callback that may throw. *)
Fixpoint filter_result {A} (p : A → result bool) (l : list A) : result (list A) :=
  match l with
  | [] => Ok []
  | x :: l' =>
      b ← p x;
      r ← filter_result p l';
      Ok (if b : bool then x :: r else r)
  end.

(** ** Weather analysis *)

(** [isRain] of [renderCityView], from [weather[0].main]. *)
Definition isRain (main : string) : bool :=
  includes (toLowerCase main) "rain" || includes (toLowerCase main) "thunder".

(** The [status] and [color] that [renderCityView] computes from the
    temperature, the condition and the wind speed. *)
Definition analysis (temp : number) (main : string) (wind_speed : number)
  : string * string :=
  if SFleb (num_of_Z 18) temp && SFleb temp (num_of_Z 32)
     && negb (isRain main) && SFltb wind_speed (num_of_Z 10)
  then ("Good Condition", "green")
  else if SFltb (num_of_Z 35) temp || SFltb temp (num_of_Z 5)
          || isRain main || SFltb (num_of_Z 15) wind_speed
       then ("Bad Condition", "red")
       else ("Moderate", "orange").

Definition status (temp : number) (main : string) (wind_speed : number) : string :=
  fst (analysis temp main wind_speed).

Definition set_checked (b : bool) (cb : checkbox) : checkbox :=
  mkCheckbox (cb_value cb) b.

(** [Object.values(checkboxes).forEach(cb => ...)] *)
Definition forEach_checkbox (f : checkbox → checkbox) (t : checkbox_table)
  : checkbox_table :=
  mkCheckboxes (f (cbAir t)) (f (cbWater t)) (f (cbSoil t)) (f (cbEco t)).

Definition check_when (b : bool) (upd : checkbox_table → checkbox_table) : M unit :=
  if b then modify (λ st, set_checkboxes (upd (checkboxes st)) st) else mret tt.

(** The body of the "Sync Checkboxes" loop for one sensor. *)
Definition sync_checkbox (s : instance) : M unit :=
  a ← lift (call_indexOf_found (getName s) "Air Quality");
  check_when a (λ t, mkCheckboxes (set_checked true (cbAir t)) (cbWater t) (cbSoil t) (cbEco t));;
  w ← lift (call_indexOf_found (getName s) "Water Quality");
  check_when w (λ t, mkCheckboxes (cbAir t) (set_checked true (cbWater t)) (cbSoil t) (cbEco t));;
  o ← lift (call_indexOf_found (getName s) "Soil Quality");
  check_when o (λ t, mkCheckboxes (cbAir t) (cbWater t) (set_checked true (cbSoil t)) (cbEco t));;
  e ← lift (call_indexOf_found (getName s) "Ecosystem Health");
  check_when e (λ t, mkCheckboxes (cbAir t) (cbWater t) (cbSoil t) (set_checked true (cbEco t))).

Fixpoint sync_checkboxes (citySensors : list instance) : M unit :=
  match citySensors with
  | [] => mret tt
  | s :: rest => sync_checkbox s;; sync_checkboxes rest
  end.

(** [renderCityView(city)].  [fetched] is what
    [await fetchWeatherForCity(city)] evaluates to: the parsed response, or
    [null] after a network error or a non-success status.  The handler is
    run to completion, without interleaving at the [await]. *)
Definition renderCityView (fetched : option weather) (cty : string) : M unit :=
  modify (set_currentCity (Some cty));;
  modify (set_currentWeatherData fetched);;
  match fetched with
  | None =>
      emit (EvWeatherResult None cty);;
      emit (EvWeatherAnalytics None);;
      emit (EvWeatherCircle JNull JNull JNull)
  | Some data =>
      emit (EvWeatherResult (Some data) cty);;
      let sc := analysis (w_temp data) (w_main data) (w_wind_speed data) in
      emit (EvWeatherAnalytics (Some (fst sc)));;
      match w_coord data with
      | None => mret tt
      | Some c =>
          emit (EvWeatherCircle (coord_lat c) (coord_lon c) (JStr (snd sc)));;
          allSensors ← getAllSensors;
          citySensors ← lift (filter_result (in_city cty) allSensors);
          updateChartForSensors citySensors;;
          updateMapForSensors citySensors (coord_lat c) (coord_lon c);;
          modify (λ st, set_checkboxes
                          (forEach_checkbox (set_checked false) (checkboxes st)) st);;
          sync_checkboxes citySensors
      end
  end.

(** The click handler of the search button; [input] is the trimmed text of
    the city field. *)
Definition fetchWeather_click (fetched : option weather) (input : string) : M unit :=
  match input with
  | EmptyString => emit (EvAlert "Enter a city to search")
  | _ => renderCityView fetched input
  end.

(** [!currentCity]: no city yet, or the empty string. *)
Definition selected_city (cc : option string) : option string :=
  match cc with
  | Some (String a s) => Some (String a s)
  | _ => None
  end.

(** The click handler of the delete button of row [idx]. *)
Definition delBtn_click (fetched : option weather) (idx : nat) : M unit :=
  sensors ← gets rowSensors;
  let sensors := delete idx sensors in               (* sensors.splice(idx, 1) *)
  modify (set_rowSensors sensors);;
  saveAllSensors sensors;;
  renderManageList;;
  cc ← gets currentCity;
  match selected_city cc with
  | Some cty => renderCityView fetched cty
  | None => mret tt
  end.

(** ** Toggle controller *)

(** "Generate Mock Data": the [value], [unit] and [desc] chosen for a
    category; [rnd] is the number returned by [Math.random()]. *)
Definition mockData (type : string) (rnd : number) : jsval * jsval * jsval :=
  if decide (type = "Air Quality")
  then (JNum (SFadd 53 1024 (Math_floor (SFmul 53 1024 rnd (num_of_Z 150))) (num_of_Z 20)),
        JStr "AQI", JStr "PM2.5 Index")
  else if decide (type = "Water Quality")
  then (JStr (toFixed1 (SFadd 53 1024 (SFmul 53 1024 rnd (num_of_Z 3)) (num_of_Z 6))),
        JStr "pH", JStr "Acidity Level")
  else if decide (type = "Soil Quality")
  then (JNum (Math_floor (SFmul 53 1024 rnd (num_of_Z 100))),
        JStr "%", JStr "Moisture Level")
  else if decide (type = "Ecosystem Health")
  then (JNum (Math_floor (SFmul 53 1024 rnd (num_of_Z 100))),
        JStr "Index", JStr "Biodiversity Score")
  else (JNum (num_of_Z 0), JStr "", JStr "").

(** [`${currentCity} ${type}`] *)
Definition sensorName (cty type : string) : string := cty +:+ " " +:+ type.

(** [s => s.getName() === sensorName] *)
Definition named (n : string) (s : instance) : Prop := getName s = JStr n.

#[global] Instance named_dec n s : Decision (named n s).
Proof. unfold named. apply _. Defined.

(** [allSensors.findIndex(s => s.getName() === sensorName)]; [None] is -1. *)
Definition findIndex_named (name : string) (allSensors : list instance) : option nat :=
  fst <$> list_find (named name) allSensors.

(** [currentWeatherData?.coord?.lat] and [...?.lon] *)
Definition focus_lat (cw : option weather) : jsval :=
  match cw with
  | Some w => match w_coord w with Some c => coord_lat c | None => JUndefined end
  | None => JUndefined
  end.
Definition focus_lon (cw : option weather) : jsval :=
  match cw with
  | Some w => match w_coord w with Some c => coord_lon c | None => JUndefined end
  | None => JUndefined
  end.

(** The tail of [toggleSensor], from [saveAllSensors(allSensors)] on. *)
Definition toggle_commit (cty : string) (allSensors : list instance) : M unit :=
  saveAllSensors allSensors;;
  renderManageList;;
  filtered ← lift (filter_result (in_city cty) allSensors);
  updateChartForSensors filtered;;
  cw ← gets currentWeatherData;
  updateMapForSensors filtered (focus_lat cw) (focus_lon cw).

(** [toggleSensor(type, isChecked)].  [fetched] is what
    [await fetchWeatherForCity(currentCity)] evaluates to if the handler
    gets there, [rnd] what [Math.random()] returns.  The handler is run to
    completion, without interleaving at the [await]. *)
Definition toggleSensor (fetched : option weather) (rnd : number)
    (type : string) (isChecked : bool) : M unit :=
  cc ← gets currentCity;
  match selected_city cc with
  | None =>
      emit (EvAlert "Please search for a city first.");;
      modify (λ st, set_checkboxes
        (forEach_checkbox
           (λ cb, if decide (cb_value cb = type)
                  then set_checked (negb isChecked) cb else cb)
           (checkboxes st)) st)
  | Some cty =>
      allSensors ← getAllSensors;
      let existingIdx := findIndex_named (sensorName cty type) allSensors in
      if isChecked then
        match existingIdx with
        | None =>
            cw ← gets currentWeatherData;
            (if cw is None
             then modify (set_currentWeatherData fetched) else mret tt);;
            cw ← gets currentWeatherData;
            match cw with
            | None => mret tt
            | Some w =>
                let '(value, u, desc) := mockData type rnd in
                c ← lift (match w_coord w with Some c => Ok c | None => TypeError end);
                let newSensor :=
                  new_TemperatureSensor (JStr (sensorName cty type)) value desc
                    (JStr cty) (coord_lat c) (coord_lon c) u in
                toggle_commit cty (allSensors ++ [newSensor])
            end
        | Some _ => toggle_commit cty allSensors
        end
      else
        match existingIdx with
        | Some i => toggle_commit cty (delete i allSensors)
        | None => toggle_commit cty allSensors
        end
  end.

(** ** Script start-up: the list is rendered, the storage item is created
    if absent, and the list is rendered again.  The chart and the map that
    the script constructs in between read and write neither the storage nor
    the list; their construction is not part of this definition. *)
Definition script_init : M unit :=
  renderManageList;;
  emit EvGetItem;;
  item ← gets localStorage;
  (if item is None
   then emit (EvSetItem []);; modify (set_localStorage (Some []))
   else mret tt);;
  renderManageList.

(** ** The category checkboxes *)

(** The four keys of the [checkboxes] table. *)
Inductive category : Type :=
| AirQuality
| WaterQuality
| SoilQuality
| EcosystemHealth.

Definition category_name (cat : category) : string :=
  match cat with
  | AirQuality => "Air Quality"
  | WaterQuality => "Water Quality"
  | SoilQuality => "Soil Quality"
  | EcosystemHealth => "Ecosystem Health"
  end.

(** [checkboxes[key]] *)
Definition checkbox_of (cat : category) (t : checkbox_table) : checkbox :=
  match cat with
  | AirQuality => cbAir t
  | WaterQuality => cbWater t
  | SoilQuality => cbSoil t
  | EcosystemHealth => cbEco t
  end.

Definition flip_checkbox (cat : category) (t : checkbox_table) : checkbox_table :=
  let flip cb := set_checked (negb (cb_checked cb)) cb in
  match cat with
  | AirQuality => mkCheckboxes (flip (cbAir t)) (cbWater t) (cbSoil t) (cbEco t)
  | WaterQuality => mkCheckboxes (cbAir t) (flip (cbWater t)) (cbSoil t) (cbEco t)
  | SoilQuality => mkCheckboxes (cbAir t) (cbWater t) (flip (cbSoil t)) (cbEco t)
  | EcosystemHealth => mkCheckboxes (cbAir t) (cbWater t) (cbSoil t) (flip (cbEco t))
  end.

(** The user clicks the checkbox of [cat]: the browser flips it and fires
    the ['change'] listener, which calls
    [toggleSensor(e.target.value, e.target.checked)]. *)
Definition checkbox_change (fetched : option weather) (rnd : number)
    (cat : category) : M unit :=
  modify (λ st, set_checkboxes (flip_checkbox cat (checkboxes st)) st);;
  target ← gets (λ st, checkbox_of cat (checkboxes st));
  toggleSensor fetched rnd (cb_value target) (cb_checked target).

(** ** Vocabulary of the specification *)

(** The display unit that the toggle flow gives to each category. *)
Definition category_unit (cat : category) : string :=
  match cat with
  | AirQuality => "AQI"
  | WaterQuality => "pH"
  | SoilQuality => "%"
  | EcosystemHealth => "Index"
  end.

(** The stored record carries the explicit type tag. *)
Definition tagged (obj : object) : Prop :=
  obj !! "type" = Some (JStr "temperature").

(** The name of the stored record is a string in which "temp" occurs, in
    any letter case. *)
Definition temp_in_name (obj : object) : Prop :=
  ∃ n pre post, obj !! "name" = Some (JStr n)
                ∧ toLowerCase n = pre +:+ "temp" +:+ post.

(** The name of the stored record is a string, or is absent (or [null]). *)
Definition name_typed (obj : object) : Prop :=
  match get obj "name" with
  | JStr _ | JUndefined | JNull => True
  | _ => False
  end.

Definition is_TemperatureSensor (e : instance) : Prop :=
  match e with Temperature _ _ => True | Base _ => False end.

(** What is read back from storage for a value that was saved. *)
Definition json_read (v : jsval) : jsval := default JUndefined (json_value v).

(** The instance that [getAllSensors] builds from the record saved for [e]. *)
Definition reload (e : instance) : result instance :=
  rehydrate (json_roundtrip (toJSON e)).

(** Values that the JSON text keeps as they are: all but NaN, the
    infinities and the negative zero. *)
Definition preserved (v : jsval) : bool :=
  match v with
  | JNum (S754_finite _ _ _) | JNum (S754_zero false) => true
  | JNum _ => false
  | _ => true
  end.

(** An optional field comes back unchanged when it holds its default [d] or
    a truthy value that the JSON text keeps. *)
Definition kept_or_default (d v : jsval) : bool :=
  bool_decide (v = d) || (truthy v && preserved v).

(** A name that makes [getAllSensors] choose the plain [Sensor] class. *)
Definition plain_name (v : jsval) : bool :=
  match v with
  | JStr n => negb (includes (toLowerCase n) "temp")
  | _ => negb (truthy v)
  end.

(** The instances that a save followed by a load reproduces. *)
Definition roundtrip_ok (e : instance) : bool :=
  preserved (sname e) && preserved (svalue e)
  && kept_or_default (JStr "") (description e)
  && kept_or_default (JStr "") (city e)
  && kept_or_default JNull (lat e)
  && kept_or_default JNull (lon e)
  && match e with
     | Base s => plain_name (sname s)
     | Temperature _ u => truthy u && preserved u
     end.

(** A stored record as [saveAllSensors] writes them: every value is one
    that the JSON text keeps. *)
Definition clean (obj : object) : Prop :=
  map_Forall (λ _ v, preserved v = true) obj.

(** The weather data that a toggle works with: the cached response if
    there is one, else the response of the fetch. *)
Definition weather_for (st : state) (fetched : option weather) : option weather :=
  match currentWeatherData st with
  | Some w => Some w
  | None => fetched
  end.


(** [e.unit]: [undefined] on a plain [Sensor]. *)
Definition unit_of (e : instance) : jsval :=
  match e with Temperature _ u => u | Base _ => JUndefined end.

Definition is_number (v : jsval) : Prop :=
  match v with JNum _ => True | _ => False end.

(** What the specification asks of the instance [e] that [getAllSensors]
    builds from the stored record [obj]. *)
Definition rehydrated_as (obj : object) (e : instance) : Prop :=
  (is_TemperatureSensor e ↔ tagged obj ∨ temp_in_name obj)
  ∧ getName e = get obj "name"
  ∧ getValue e = get obj "value"
  ∧ (obj !! "description" = None → description e = JStr "")
  ∧ (obj !! "city" = None → city e = JStr "")
  ∧ (obj !! "lat" = None → lat e = JNull)
  ∧ (obj !! "lon" = None → lon e = JNull)
  ∧ (is_TemperatureSensor e → obj !! "unit" = None → unit_of e = JStr "°C")
  ∧ (truthy (get obj "description") = true → description e = get obj "description")
  ∧ (truthy (get obj "city") = true → city e = get obj "city")
  ∧ (truthy (get obj "lat") = true → lat e = get obj "lat")
  ∧ (truthy (get obj "lon") = true → lon e = get obj "lon")
  ∧ (is_TemperatureSensor e → truthy (get obj "unit") = true →
     unit_of e = get obj "unit").

(** ** Sample data *)

Definition sample_checkboxes : checkbox_table :=
  mkCheckboxes (mkCheckbox "Air Quality" false) (mkCheckbox "Water Quality" false)
               (mkCheckbox "Soil Quality" false) (mkCheckbox "Ecosystem Health" false).

(** A freshly loaded page, before any search. *)
Definition fresh_page : state :=
  mkState (Some []) None None sample_checkboxes [] [] [].

Definition paris_weather : weather :=
  mkWeather (Some (mkCoord (JNum (num_of_Z 48)) (JNum (num_of_Z 2))))
            (num_of_Z 25) (num_of_Z 50) "Clear" "clear sky" "01d"
            (num_of_Z 5) "Paris" "FR".

(** The page after a search for Paris. *)
Definition paris_page : state :=
  mkState (Some []) (Some "Paris") (Some paris_weather) sample_checkboxes [] [] [].

(** The page after a search for Paris whose weather request failed. *)
Definition paris_offline_page : state :=
  mkState (Some []) (Some "Paris") None sample_checkboxes [] [] [].

(** 0.5, as a draw of [Math.random()]. *)
Definition one_half : number := binary_normalize 53 1024 1 (-1) false.

(** A reading taken on the equator. *)
Definition quito_air : instance :=
  new_TemperatureSensor (JStr "Quito Air Quality") (JNum (num_of_Z 42))
    (JStr "PM2.5 Index") (JStr "Quito") (JNum (num_of_Z 0))
    (JNum (num_of_Z (-78))) (JStr "AQI").

Definition paris_air : instance :=
  new_TemperatureSensor (JStr "Paris Air Quality") (JNum (num_of_Z 42))
    (JStr "PM2.5 Index") (JStr "Paris") (JNum (num_of_Z 48))
    (JNum (num_of_Z 2)) (JStr "AQI").

Definition paris_soil : instance :=
  new_TemperatureSensor (JStr "Paris Soil Quality") (JNum (num_of_Z 30))
    (JStr "Moisture Level") (JStr "Paris") (JNum (num_of_Z 48))
    (JNum (num_of_Z 2)) (JStr "%").

(** A stored record without optional fields. *)
Definition bare_record : object :=
  <["value" := JNum (num_of_Z 7)]> (<["name" := JStr "Room Temp"]> ∅).

(** A stored record placed on the equator. *)
Definition equator_record : object :=
  <["lon" := JNum (num_of_Z 9)]> (<["lat" := JNum (num_of_Z 0)]>
  (<["value" := JNum (num_of_Z 7)]> (<["name" := JStr "Libreville Air Quality"]> ∅))).

(** ** Theme toggle *)

(** What the toggle button shows: the sun, the moon, or what the page
    markup put there. *)
Inductive icon : Type :=
| IconSun
| IconMoon
| IconMarkup.

Record theme_page : Type := mkThemePage {
  theme_item : option string;    (* the storage item under [THEME_KEY] *)
  dark_mode : bool;              (* [body] carries the class "dark-mode" *)
  toggle_icon : icon;            (* content of the toggle button *)
  window_envChart : bool;        (* [window.envChart] is defined *)
  chart_data : list jsval;       (* [envChart.data.datasets[0].data] *)
  chart_colors : list string     (* [....backgroundColor] *)
}.

(** "Load saved theme", on a page that has the toggle button. *)
Definition theme_load (p : theme_page) : theme_page :=
  if decide (theme_item p = Some "dark")
  then mkThemePage (theme_item p) true IconSun (window_envChart p)
                   (chart_data p) (chart_colors p)
  else p.

(** The click handler of the toggle button. *)
Definition theme_click (p : theme_page) : theme_page :=
  let isDark := negb (dark_mode p) in
  mkThemePage (Some (if isDark then "dark" else "light")) isDark
    (if isDark then IconSun else IconMoon)
    (window_envChart p) (chart_data p)
    (if window_envChart p
     then (λ _, if isDark then "#4ade80" else "#2e8b57") <$> chart_data p
     else chart_colors p).

(** ** Further vocabulary *)



(** The calls that [updateMapForSensors] makes into the map, in order. *)
Definition map_events (sensorArray : list instance) (focusLat focusLon : jsval)
  : list event :=
  let focusLat := param_default JNull focusLat in
  let focusLon := param_default JNull focusLon in
  EvMapClear ::
  match sensorArray with
  | [] =>
      if truthy focusLat && truthy focusLon
      then [EvMapView focusLat focusLon 8] else []
  | first :: _ =>
      EvMapMarkers (omap (marker_of focusLat focusLon) sensorArray) ::
      if truthy (lat first) && truthy (lon first)
      then [EvMapView (lat first) (lon first) 10]
      else if truthy focusLat && truthy focusLon
           then [EvMapView focusLat focusLon 10] else []
  end.

(** The city is a string that equals [c] up to the case of its letters. *)
Definition city_is (c : string) (s : instance) : Prop :=
  ∃ n, city s = JStr n ∧ toLowerCase n = toLowerCase c.

(** A stored record on which the callback of [getAllSensors] throws: no
    type tag, and a truthy name that is not a string. *)
Definition unloadable (obj : object) : bool :=
  negb (bool_decide (get obj "type" = JStr "temperature"))
  && truthy (get obj "name")
  && match get obj "name" with JStr _ => false | _ => true end.

(** No two instances of the collection carry the same name. *)
Definition unique_names (l : list instance) : Prop :=
  ∀ n, (length (filter (named n) l) ≤ 1)%nat.



(** A page that shows Paris with a stored air reading. *)
Definition paris_air_page : state :=
  mkState (Some (stored_records [paris_air])) (Some "Paris") (Some paris_weather)
          sample_checkboxes [paris_air] [paris_air] [].

(** A weather response without coordinates. *)
Definition nowhere_weather : weather :=
  mkWeather None (num_of_Z 25) (num_of_Z 50) "Clear" "clear sky" "01d"
            (num_of_Z 5) "Nowhere" "XX".

(** A record that cannot be loaded. *)
Definition numbered_record : object := <["name" := JNum (num_of_Z 5)]> ∅.

Definition light_page : theme_page :=
  mkThemePage None false IconMarkup false [] [].





(** * Properties *)

(** ** Strings *)

Lemma append_cons a (s t : string) : String a s +:+ t = String a (s +:+ t).
Proof. reflexivity. Qed.

Lemma append_nil (t : string) : "" +:+ t = t.
Proof. reflexivity. Qed.

Lemma prefix_app (t s : string) :
  String.prefix t s = true ↔ ∃ post, s = t +:+ post.
Proof.
  revert s. induction t as [|a t IH]; intros [|b s]; simpl;
    rewrite ?append_cons, ?append_nil.
  - split; [intros _; by exists "" | done].
  - split; [intros _; by exists (String b s) | done].
  - split; [done | intros [post ?]; discriminate].
  - destruct (ascii_dec a b) as [->|Hne].
    + rewrite IH. split; intros [post Hp]; exists post;
        rewrite ?append_cons in *; congruence.
    + split; [done | intros [post Hp]; rewrite append_cons in Hp; congruence].
Qed.

Lemma includes_nil (t : string) : includes "" t = String.prefix t "".
Proof. simpl. by rewrite orb_false_r. Qed.

Lemma includes_cons a (s t : string) :
  includes (String a s) t = String.prefix t (String a s) || includes s t.
Proof. reflexivity. Qed.

(** [includes] finds exactly the occurrences of [t] inside [s]. *)
Lemma includes_spec (s t : string) :
  includes s t = true ↔ ∃ pre post, s = pre +:+ t +:+ post.
Proof.
  split.
  - induction s as [|a s IH].
    + rewrite includes_nil. intros [post ->]%prefix_app. by exists "", post.
    + rewrite includes_cons. intros [H|H]%orb_true_iff.
      * apply prefix_app in H as [post ->]. by exists "", post.
      * destruct (IH H) as (pre & post & ->). by exists (String a pre), post.
  - intros (pre & post & ->). induction pre as [|a pre IH].
    + rewrite append_nil.
      assert (String.prefix t (t +:+ post) = true) as Hp
        by (apply prefix_app; by exists post).
      destruct (t +:+ post).
      * by rewrite includes_nil.
      * by rewrite includes_cons, Hp.
    + rewrite append_cons, includes_cons. apply orb_true_iff. by right.
Qed.

(** ** Plain objects and the JSON text *)

Lemma get_insert_eq (o : object) k v : get (<[k := v]> o) k = v.
Proof. unfold get. by rewrite lookup_insert_eq. Qed.

Lemma get_insert_ne (o : object) k k' v : k ≠ k' → get (<[k := v]> o) k' = get o k'.
Proof. intros. unfold get. by rewrite lookup_insert_ne. Qed.

Lemma get_empty k : get ∅ k = JUndefined.
Proof. done. Qed.

Lemma get_json_roundtrip (o : object) k :
  get (json_roundtrip o) k = json_read (get o k).
Proof.
  unfold get, json_roundtrip, json_read. rewrite lookup_omap.
  by destruct (o !! k).
Qed.

Lemma json_read_preserved v : json_read v = v ↔ preserved v = true.
Proof. destruct v as [| | |[[]| | |]|]; simpl; split; (done || discriminate). Qed.

Lemma json_read_str v s : json_read v = JStr s ↔ v = JStr s.
Proof. destruct v as [| | |[]|]; simpl; split; (done || discriminate). Qed.

Lemma truthy_json_read_falsy v : truthy v = false → truthy (json_read v) = false.
Proof. by destruct v as [| | |[]|]. Qed.

Lemma js_or_default_fix d v :
  truthy d = false → preserved d = true →
  js_or (json_read v) d = v ↔ kept_or_default d v = true.
Proof.
  intros Hd Hp. unfold js_or, kept_or_default.
  destruct (decide (v = d)) as [->|Hne].
  - rewrite bool_decide_eq_true_2 by done. simpl.
    apply json_read_preserved in Hp. rewrite Hp, Hd. done.
  - rewrite bool_decide_eq_false_2 by done. simpl.
    destruct (truthy v) eqn:Ht; simpl.
    + destruct (preserved v) eqn:Hv.
      * apply json_read_preserved in Hv. rewrite Hv, Ht. done.
      * split; [|done]. intros H.
        destruct (truthy (json_read v)); [|congruence].
        apply json_read_preserved in H. congruence.
    + rewrite truthy_json_read_falsy by done. split; [congruence | done].
Qed.

Lemma param_default_js_or d d' v : d' ≠ JUndefined → param_default d (js_or v d') = js_or v d'.
Proof.
  intros Hd. unfold js_or. destruct (truthy v) eqn:Ht.
  - by destruct v.
  - by destruct d'.
Qed.

(** ** Saving one instance and loading it again *)

Ltac get_simpl :=
  rewrite ?get_json_roundtrip; unfold toJSON, Sensor_toJSON;
  repeat (rewrite get_insert_eq || rewrite get_insert_ne by done);
  rewrite ?get_empty.

Lemma stored_name e : get (json_roundtrip (toJSON e)) "name" = json_read (getName e).
Proof. destruct e; by get_simpl. Qed.

Lemma stored_value e : get (json_roundtrip (toJSON e)) "value" = json_read (getValue e).
Proof. destruct e; by get_simpl. Qed.

Lemma stored_description e :
  get (json_roundtrip (toJSON e)) "description" = json_read (description e).
Proof. destruct e; by get_simpl. Qed.

Lemma stored_city e : get (json_roundtrip (toJSON e)) "city" = json_read (city e).
Proof. destruct e; by get_simpl. Qed.

Lemma stored_lat e : get (json_roundtrip (toJSON e)) "lat" = json_read (lat e).
Proof. destruct e; by get_simpl. Qed.

Lemma stored_lon e : get (json_roundtrip (toJSON e)) "lon" = json_read (lon e).
Proof. destruct e; by get_simpl. Qed.

Lemma stored_unit s u : get (json_roundtrip (toJSON (Temperature s u))) "unit" = json_read u.
Proof. by get_simpl. Qed.

Lemma stored_type_Temperature s u :
  get (json_roundtrip (toJSON (Temperature s u))) "type" = JStr "temperature".
Proof. by get_simpl. Qed.

Lemma stored_type_Base s : get (json_roundtrip (toJSON (Base s))) "type" = JUndefined.
Proof. by get_simpl. Qed.

Lemma stored_unit_Base s : get (json_roundtrip (toJSON (Base s))) "unit" = JUndefined.
Proof. by get_simpl. Qed.

Lemma is_temperature_stored_Temperature s u :
  is_temperature (json_roundtrip (toJSON (Temperature s u))) = Ok true.
Proof.
  unfold is_temperature. rewrite stored_type_Temperature.
  by rewrite decide_True.
Qed.

Lemma is_temperature_stored_Base s :
  is_temperature (json_roundtrip (toJSON (Base s))) =
  if truthy (json_read (sname s))
  then low ← call_toLowerCase (json_read (sname s)); Ok (includes low "temp")
  else Ok false.
Proof.
  unfold is_temperature. rewrite stored_type_Base, stored_name.
  by rewrite decide_False.
Qed.

Lemma is_temperature_plain_name s :
  is_temperature (json_roundtrip (toJSON (Base s))) = Ok false
  ↔ plain_name (json_read (sname s)) = true.
Proof.
  rewrite is_temperature_stored_Base. unfold plain_name.
  destruct (json_read (sname s)) as [| |b|x|n] eqn:E; simpl.
  - done.
  - done.
  - destruct b; simpl; split; (done || discriminate).
  - destruct x; simpl; split; (done || discriminate).
  - destruct n as [|a n]; simpl.
    + by split.
    + rewrite negb_true_iff. split; [congruence|intros ->; done].
Qed.

Lemma js_or_truthy_default_fix d v :
  truthy d = true → preserved d = true →
  js_or (json_read v) d = v ↔ truthy v && preserved v = true.
Proof.
  intros Hd Hp. unfold js_or. rewrite andb_true_iff.
  destruct (preserved v) eqn:Hv.
  - apply json_read_preserved in Hv. rewrite Hv.
    destruct (truthy v) eqn:Ht; [done|].
    split; [intros <-; congruence | intros [? _]; done].
  - split; [|intros [_ ?]; done]. intros H.
    destruct (truthy (json_read v)) eqn:Ht.
    + apply json_read_preserved in H. congruence.
    + subst v. congruence.
Qed.

Lemma construct_stored_Temperature s u :
  construct true (json_roundtrip (toJSON (Temperature s u))) =
  Temperature
    {| sname := json_read (sname s);
       svalue := json_read (svalue s);
       description := js_or (json_read (description s)) (JStr "");
       city := js_or (json_read (city s)) (JStr "");
       lat := js_or (json_read (lat s)) JNull;
       lon := js_or (json_read (lon s)) JNull |}
    (js_or (json_read u) (JStr "°C")).
Proof.
  unfold construct, new_TemperatureSensor, new_Sensor.
  rewrite stored_name, stored_value, stored_description, stored_city,
    stored_lat, stored_lon, stored_unit.
  by rewrite !param_default_js_or.
Qed.

Lemma construct_stored_Base s :
  construct false (json_roundtrip (toJSON (Base s))) =
  Base
    {| sname := json_read (sname s);
       svalue := json_read (svalue s);
       description := js_or (json_read (description s)) (JStr "");
       city := js_or (json_read (city s)) (JStr "");
       lat := js_or (json_read (lat s)) JNull;
       lon := js_or (json_read (lon s)) JNull |}.
Proof.
  unfold construct, new_Sensor.
  rewrite stored_name, stored_value, stored_description, stored_city,
    stored_lat, stored_lon.
  by rewrite !param_default_js_or.
Qed.

Lemma reload_Temperature s u :
  reload (Temperature s u) =
  Ok (Temperature
        {| sname := json_read (sname s);
           svalue := json_read (svalue s);
           description := js_or (json_read (description s)) (JStr "");
           city := js_or (json_read (city s)) (JStr "");
           lat := js_or (json_read (lat s)) JNull;
           lon := js_or (json_read (lon s)) JNull |}
        (js_or (json_read u) (JStr "°C"))).
Proof.
  unfold reload, rehydrate. rewrite is_temperature_stored_Temperature.
  cbn [mbind result_bind]. by rewrite construct_stored_Temperature.
Qed.

Lemma reload_Base_plain s :
  plain_name (json_read (sname s)) = true →
  reload (Base s) =
  Ok (Base
        {| sname := json_read (sname s);
           svalue := json_read (svalue s);
           description := js_or (json_read (description s)) (JStr "");
           city := js_or (json_read (city s)) (JStr "");
           lat := js_or (json_read (lat s)) JNull;
           lon := js_or (json_read (lon s)) JNull |}).
Proof.
  intros Hp. unfold reload, rehydrate.
  apply is_temperature_plain_name in Hp. rewrite Hp.
  cbn [mbind result_bind]. by rewrite construct_stored_Base.
Qed.

Lemma reload_Base_inv s e :
  reload (Base s) = Ok (Base e) → plain_name (json_read (sname s)) = true.
Proof.
  unfold reload, rehydrate. intros H.
  apply is_temperature_plain_name.
  destruct (is_temperature _) as [[]|]; simpl in H; [|done|done].
  unfold construct, new_TemperatureSensor in H. discriminate.
Qed.

Lemma Sensor_eq_iff n v d c la lo (s : Sensor) :
  mkSensor n v d c la lo = s ↔
  n = sname s ∧ v = svalue s ∧ d = description s ∧ c = city s
  ∧ la = lat s ∧ lo = lon s.
Proof.
  destruct s; simpl. split.
  - intros [=]. done.
  - intros (-> & -> & -> & -> & -> & ->). done.
Qed.

(** A save followed by a load gives back exactly the instances that satisfy
    [roundtrip_ok]. *)
Lemma reload_ok_iff e : reload e = Ok e ↔ roundtrip_ok e = true.
Proof.
  unfold roundtrip_ok. rewrite !andb_true_iff.
  rewrite <- !json_read_preserved.
  rewrite <- !(js_or_default_fix (JStr "")) by done.
  rewrite <- !(js_or_default_fix JNull) by done.
  destruct e as [s|s u]; simpl.
  - split.
    + intros H. pose proof (reload_Base_inv _ _ H) as Hp.
      rewrite reload_Base_plain in H by done.
      injection H as H. apply Sensor_eq_iff in H as (Hn & ? & ? & ? & ? & ?).
      rewrite Hn in Hp. done.
    + intros ((((((Hn & ?) & ?) & ?) & ?) & ?) & Hp).
      rewrite reload_Base_plain by (by rewrite Hn).
      f_equal. f_equal. apply Sensor_eq_iff. done.
  - rewrite reload_Temperature. rewrite <- (js_or_truthy_default_fix (JStr "°C")) by done.
    split.
    + intros Heq. injection Heq as H Hu.
      apply Sensor_eq_iff in H as (? & ? & ? & ? & ? & ?). done.
    + intros ((((((? & ?) & ?) & ?) & ?) & ?) & Hu).
      rewrite Hu. f_equal. f_equal. apply Sensor_eq_iff. done.
Qed.

(** ** Loading and saving collections *)

Lemma mapM_result_cons {A B} (f : A → result B) x l :
  mapM f (x :: l) = y ← f x; k ← mapM f l; Ok (y :: k).
Proof. reflexivity. Qed.

Lemma mapM_result_fmap {A B C} (f : B → result C) (g : A → B) l :
  mapM f (g <$> l) = mapM (f ∘ g) l.
Proof.
  induction l as [|x l IH]; [done|].
  rewrite fmap_cons, !mapM_result_cons, IH. done.
Qed.

Lemma mapM_result_Ok_inv {A B} (f : A → result B) x l k :
  mapM f (x :: l) = Ok k → ∃ y k', f x = Ok y ∧ mapM f l = Ok k' ∧ k = y :: k'.
Proof.
  rewrite mapM_result_cons. destruct (f x) as [y|]; [|done].
  destruct (mapM f l) as [k'|]; [|done]. intros [= <-]. eauto.
Qed.

Lemma mapM_result_Ok {A B} (f : A → result B) l k :
  mapM f l = Ok k ↔ Forall2 (λ x y, f x = Ok y) l k.
Proof.
  revert k. induction l as [|x l IH]; intros k.
  - split; [intros [= <-]; constructor | by inversion 1].
  - split.
    + intros (y & k' & Hx & Hl & ->)%mapM_result_Ok_inv.
      constructor; [done | by apply IH].
    + inversion 1 as [|? y ? k' Hx Hl]; subst.
      apply IH in Hl. by rewrite mapM_result_cons, Hx, Hl.
Qed.

Lemma mapM_result_app {A B} (f : A → result B) (l1 l2 : list A) (k1 k2 : list B) :
  mapM f l1 = Ok k1 → mapM f l2 = Ok k2 → mapM f (l1 ++ l2) = Ok (k1 ++ k2).
Proof.
  rewrite !mapM_result_Ok. apply Forall2_app.
Qed.

Lemma mapM_result_length {A B} (f : A → result B) l k :
  mapM f l = Ok k → length k = length l.
Proof. rewrite mapM_result_Ok. intros H. symmetry. by eapply Forall2_length. Qed.

(** Loading what was saved for [l] is [reload], instance by instance. *)
Lemma load_stored_records l : mapM rehydrate (stored_records l) = mapM reload l.
Proof.
  unfold stored_records. by rewrite !mapM_result_fmap.
Qed.

Lemma reload_all_ok_iff l :
  mapM reload l = Ok l ↔ Forall (λ e, roundtrip_ok e = true) l.
Proof.
  rewrite mapM_result_Ok. induction l as [|e l IH].
  - split; constructor.
  - split.
    + inversion 1; subst. constructor; [by apply reload_ok_iff | by apply IH].
    + inversion 1; subst. constructor; [by apply reload_ok_iff | by apply IH].
Qed.

(** ** Running the storage helpers *)

Lemma getAllSensors_run st :
  getAllSensors st =
  (mapM rehydrate (default [] (localStorage st)),
   set_trace (trace st ++ [EvGetItem]) st).
Proof. reflexivity. Qed.

Lemma saveAllSensors_run l st :
  saveAllSensors l st =
  (Ok tt,
   set_localStorage (Some (stored_records l))
     (set_trace (trace st ++ [EvSetItem (stored_records l)]) st)).
Proof. reflexivity. Qed.

Lemma bind_run {A B} (m : M A) (f : A → M B) st a st' :
  m st = (Ok a, st') → (m ≫= f) st = f a st'.
Proof. intros H. unfold mbind, M_bind. by rewrite H. Qed.

Lemma bind_throw {A B} (m : M A) (f : A → M B) st st' :
  m st = (TypeError, st') → (m ≫= f) st = (TypeError, st').
Proof. intros H. unfold mbind, M_bind. by rewrite H. Qed.

(** *** Parts of the state that an operation leaves alone *)

Lemma keeps_bind {X A B} (proj : state → X) (m : M A) (f : A → M B) :
  keeps proj m → (∀ a, keeps proj (f a)) → keeps proj (m ≫= f).
Proof.
  intros Hm Hf st. unfold exec, mbind, M_bind.
  specialize (Hm st). unfold exec in Hm.
  destruct (m st) as [[a|] st'] eqn:E; simpl in *.
  - rewrite <- Hm. apply Hf.
  - done.
Qed.

Lemma keeps_ret {X A} (proj : state → X) (a : A) : keeps proj (mret a).
Proof. by intros st. Qed.

Lemma keeps_gets {X A} (proj : state → X) (f : state → A) : keeps proj (gets f).
Proof. by intros st. Qed.

Lemma keeps_lift {X A} (proj : state → X) (r : result A) : keeps proj (lift r).
Proof. by intros st. Qed.

Lemma keeps_modify {X} (proj : state → X) (f : state → state) :
  (∀ st, proj (f st) = proj st) → keeps proj (modify f).
Proof. intros H st. apply H. Qed.

Lemma keeps_emit {X} (proj : state → X) e :
  (∀ v st, proj (set_trace v st) = proj st) → keeps proj (emit e).
Proof. intros H. apply keeps_modify. intros st. apply H. Qed.

Ltac keeps_tac :=
  repeat first
    [ apply keeps_ret | apply keeps_gets | apply keeps_lift
    | apply keeps_emit; done | apply keeps_modify; done
    | apply keeps_bind; [|intros ?]
    | match goal with |- keeps _ (match ?x with _ => _ end) => destruct x end ].

Lemma getAllSensors_keeps {X} (proj : state → X) :
  (∀ v st, proj (set_trace v st) = proj st) → keeps proj getAllSensors.
Proof. intros H st. unfold exec. rewrite getAllSensors_run. apply H. Qed.

Lemma updateChartForSensors_keeps {X} (proj : state → X) ss :
  (∀ v st, proj (set_trace v st) = proj st) → keeps proj (updateChartForSensors ss).
Proof. intros H. unfold updateChartForSensors. by apply keeps_emit. Qed.

Lemma updateMapForSensors_keeps {X} (proj : state → X) ss fla flo :
  (∀ v st, proj (set_trace v st) = proj st) → keeps proj (updateMapForSensors ss fla flo).
Proof.
  intros H. unfold updateMapForSensors.
  apply keeps_bind; [by apply keeps_emit | intros _].
  destruct ss as [|first rest].
  - destruct (_ && _); [by apply keeps_emit | apply keeps_ret].
  - apply keeps_bind; [by apply keeps_emit | intros _].
    repeat (destruct (_ && _); [by apply keeps_emit|]). apply keeps_ret.
Qed.

Lemma sync_checkboxes_keeps {X} (proj : state → X) ss :
  (∀ v st, proj (set_checkboxes v st) = proj st) → keeps proj (sync_checkboxes ss).
Proof.
  intros H. induction ss as [|s ss IH]; simpl; [apply keeps_ret|].
  apply keeps_bind; [|done].
  unfold sync_checkbox, check_when. keeps_tac.
Qed.

Lemma renderCityView_keeps {X} (proj : state → X) fetched cty :
  (∀ v st, proj (set_trace v st) = proj st) →
  (∀ v st, proj (set_checkboxes v st) = proj st) →
  (∀ v st, proj (set_currentCity v st) = proj st) →
  (∀ v st, proj (set_currentWeatherData v st) = proj st) →
  keeps proj (renderCityView fetched cty).
Proof.
  intros Ht Hc Hcc Hw. unfold renderCityView.
  apply keeps_bind; [by apply keeps_modify | intros _].
  apply keeps_bind; [by apply keeps_modify | intros _].
  destruct fetched as [data|].
  - apply keeps_bind; [by apply keeps_emit | intros _].
    apply keeps_bind; [by apply keeps_emit | intros _].
    destruct (w_coord data) as [c|]; [|apply keeps_ret].
    apply keeps_bind; [by apply keeps_emit | intros _].
    apply keeps_bind; [by apply getAllSensors_keeps | intros allSensors].
    apply keeps_bind; [apply keeps_lift | intros citySensors].
    apply keeps_bind; [by apply updateChartForSensors_keeps | intros _].
    apply keeps_bind; [by apply updateMapForSensors_keeps | intros _].
    apply keeps_bind; [by apply keeps_modify | intros _].
    by apply sync_checkboxes_keeps.
  - apply keeps_bind; [by apply keeps_emit | intros _].
    apply keeps_bind; [by apply keeps_emit | intros _].
    by apply keeps_emit.
Qed.

(** [renderManageList] shows what the storage holds. *)
Lemma renderManageList_run st l :
  mapM rehydrate (default [] (localStorage st)) = Ok l →
  renderManageList st =
  (Ok tt, set_rowSensors l (set_dataList l (set_trace (trace st ++ [EvGetItem]) st))).
Proof.
  intros H. unfold renderManageList.
  erewrite bind_run by (rewrite getAllSensors_run, H; reflexivity).
  reflexivity.
Qed.

Lemma renderManageList_keeps_storage : keeps localStorage renderManageList.
Proof.
  unfold renderManageList.
  apply keeps_bind; [by apply getAllSensors_keeps | intros l]. keeps_tac.
Qed.

(** The tail of [toggleSensor] leaves the records of [allSensors] in the
    storage, whatever happens to the views afterwards. *)
Lemma toggle_commit_storage cty allSensors st :
  localStorage (exec (toggle_commit cty allSensors) st)
  = Some (stored_records allSensors).
Proof.
  unfold toggle_commit, exec.
  rewrite (bind_run _ _ _ _ _ (saveAllSensors_run _ _)).
  match goal with |- localStorage (snd (?m ?s)) = _ =>
    change (localStorage (exec m s) = localStorage s) end.
  apply keeps_bind; [apply renderManageList_keeps_storage | intros _].
  apply keeps_bind; [apply keeps_lift | intros filtered].
  apply keeps_bind; [by apply updateChartForSensors_keeps | intros _].
  apply keeps_bind; [apply keeps_gets | intros cw].
  by apply updateMapForSensors_keeps.
Qed.

(** When the saved records load again, the manage list shows them. *)
Lemma toggle_commit_dataList cty allSensors st shown :
  mapM reload allSensors = Ok shown →
  dataList (exec (toggle_commit cty allSensors) st) = shown.
Proof.
  intros Hre. unfold toggle_commit, exec.
  rewrite (bind_run _ _ _ _ _ (saveAllSensors_run _ _)).
  set (st1 := set_localStorage _ _).
  assert (mapM rehydrate (default [] (localStorage st1)) = Ok shown)
    as Hl by (simpl; by rewrite load_stored_records).
  rewrite (bind_run _ _ _ _ _ (renderManageList_run st1 _ Hl)).
  match goal with |- dataList (snd (?m ?s)) = _ =>
    change (dataList (exec m s) = dataList s) end.
  apply keeps_bind; [apply keeps_lift | intros filtered].
  apply keeps_bind; [by apply updateChartForSensors_keeps | intros _].
  apply keeps_bind; [apply keeps_gets | intros cw].
  by apply updateMapForSensors_keeps.
Qed.

(** ** Lookup by name *)

Lemma findIndex_named_None n l :
  Forall (λ e, ¬ named n e) l → findIndex_named n l = None.
Proof.
  intros H. unfold findIndex_named.
  destruct (list_find _ l) as [[i e]|] eqn:E; [|done].
  apply list_find_Some in E as (Hi & He & _).
  rewrite Forall_forall in H. exfalso. eapply H; [|exact He].
  eapply list_elem_of_lookup_2. exact Hi.
Qed.

(** [findIndex] stops at the first instance that carries the name. *)
Lemma findIndex_named_first n l1 e l2 :
  Forall (λ x, ¬ named n x) l1 → named n e →
  findIndex_named n (l1 ++ e :: l2) = Some (length l1).
Proof.
  intros Hl1 He. unfold findIndex_named.
  assert (list_find (named n) (l1 ++ e :: l2) = Some (length l1, e))
    as ->; [|done].
  apply list_find_Some. split_and!.
  - apply list_lookup_middle. done.
  - exact He.
  - intros j y Hj Hlt. rewrite lookup_app_l in Hj by done.
    rewrite Forall_forall in Hl1. apply Hl1.
    eapply list_elem_of_lookup_2. exact Hj.
Qed.

(** ** Stepping through [toggleSensor] *)

Lemma toggleSensor_off_run fetched rnd type st cty l :
  selected_city (currentCity st) = Some cty →
  mapM rehydrate (default [] (localStorage st)) = Ok l →
  toggleSensor fetched rnd type false st =
  toggle_commit cty
    (match findIndex_named (sensorName cty type) l with
     | Some i => delete i l
     | None => l
     end)
    (set_trace (trace st ++ [EvGetItem]) st).
Proof.
  intros Hsel Hload. unfold toggleSensor.
  rewrite (bind_run _ _ st (currentCity st) st) by reflexivity.
  rewrite Hsel.
  erewrite bind_run by (rewrite getAllSensors_run, Hload; reflexivity).
  by destruct (findIndex_named _ l).
Qed.

Lemma toggleSensor_on_run fetched rnd type st cty l w c :
  selected_city (currentCity st) = Some cty →
  mapM rehydrate (default [] (localStorage st)) = Ok l →
  Forall (λ e, ¬ named (sensorName cty type) e) l →
  weather_for st fetched = Some w →
  w_coord w = Some c →
  toggleSensor fetched rnd type true st =
  toggle_commit cty
    (l ++ [new_TemperatureSensor (JStr (sensorName cty type))
             (mockData type rnd).1.1 (mockData type rnd).2
             (JStr cty) (coord_lat c) (coord_lon c) (mockData type rnd).1.2])
    (set_currentWeatherData (Some w) (set_trace (trace st ++ [EvGetItem]) st)).
Proof.
  intros Hsel Hload Hno Hw Hc. unfold toggleSensor.
  rewrite (bind_run _ _ st (currentCity st) st) by reflexivity.
  rewrite Hsel.
  erewrite bind_run by (rewrite getAllSensors_run, Hload; reflexivity).
  rewrite findIndex_named_None by done.
  erewrite bind_run by reflexivity.
  unfold weather_for in Hw.
  destruct (mockData type rnd) as [[value u] desc] eqn:Hmock. simpl.
  destruct (currentWeatherData st) as [w'|] eqn:Hcw.
  - injection Hw as ->.
    erewrite bind_run by reflexivity.
    erewrite bind_run by reflexivity.
    simpl. rewrite Hcw.
    erewrite bind_run by (unfold lift; rewrite Hc; reflexivity).
    f_equal. destruct st; simpl in *. by subst.
  - subst fetched.
    erewrite bind_run by reflexivity.
    erewrite bind_run by reflexivity.
    simpl.
    erewrite bind_run by (unfold lift; rewrite Hc; reflexivity).
    reflexivity.
Qed.

(** The mock reading of each category: its unit, and the kind of its value. *)
Lemma mockData_category cat rnd :
  ∃ value desc,
    mockData (category_name cat) rnd
    = (value, JStr (category_unit cat), JStr desc)
    ∧ desc ≠ ""
    ∧ (cat ≠ WaterQuality → is_number value)
    ∧ (cat = WaterQuality → ∃ s, value = JStr s).
Proof.
  unfold mockData. destruct cat; simpl; repeat case_decide; try done;
    eexists _, _; (split; [reflexivity|]); split_and!; done || eauto.
Qed.

(** ** Instances that come from the storage can be saved and loaded again *)

Lemma plain_name_json_read v : plain_name v = true → plain_name (json_read v) = true.
Proof. destruct v as [| | |[[]| | |]|]; simpl; done. Qed.

Lemma is_temperature_false_plain obj :
  is_temperature obj = Ok false → plain_name (get obj "name") = true.
Proof.
  unfold is_temperature, plain_name. case_decide; [done|].
  destruct (get obj "name") as [| |b|x|n]; simpl; try done.
  - by destruct b.
  - by destruct x.
  - destruct n as [|a n]; simpl; [done|]. intros [= ->]. done.
Qed.

Lemma rehydrate_reload obj e :
  rehydrate obj = Ok e →
  ∃ e', reload e = Ok e' ∧ getName e' = json_read (getName e).
Proof.
  unfold rehydrate. destruct (is_temperature obj) as [[]|] eqn:Ht; [| |done].
  - intros [= <-]. unfold construct, new_TemperatureSensor.
    rewrite reload_Temperature. eexists. split; [reflexivity|]. done.
  - intros [= <-]. unfold construct.
    apply is_temperature_false_plain, plain_name_json_read in Ht.
    rewrite reload_Base_plain by done. eexists. split; [reflexivity|]. done.
Qed.

Lemma loaded_reload raw l :
  mapM rehydrate raw = Ok l →
  ∃ la, mapM reload l = Ok la
        ∧ Forall2 (λ e e', getName e' = json_read (getName e)) l la.
Proof.
  revert l. induction raw as [|obj raw IH]; intros l.
  - intros [= <-]. exists []. split; [done | constructor].
  - intros (e & l' & He & Hl & ->)%mapM_result_Ok_inv.
    destruct (IH _ Hl) as (la & Hla & Hn).
    destruct (rehydrate_reload _ _ He) as (e' & He' & Hn').
    exists (e' :: la). split; [|by constructor].
    by rewrite mapM_result_cons, He', Hla.
Qed.

Lemma not_named_reload n (l la : list instance) :
  Forall (λ e, ¬ named n e) l →
  Forall2 (λ e e', getName e' = json_read (getName e)) l la →
  Forall (λ e, ¬ named n e) la.
Proof.
  intros Hl H2. induction H2 as [|e e' l la He _ IH]; [constructor|].
  inversion Hl; subst. constructor; [|by apply IH].
  unfold named in *. rewrite He. by rewrite json_read_str.
Qed.

(** ** The toggle leaves the selected city alone *)

Lemma saveAllSensors_keeps {X} (proj : state → X) l :
  (∀ v st, proj (set_trace v st) = proj st) →
  (∀ v st, proj (set_localStorage v st) = proj st) →
  keeps proj (saveAllSensors l).
Proof.
  intros Ht Hs. unfold saveAllSensors.
  apply keeps_bind; [by apply keeps_emit | intros _]. by apply keeps_modify.
Qed.

Lemma renderManageList_keeps {X} (proj : state → X) :
  (∀ v st, proj (set_trace v st) = proj st) →
  (∀ v st, proj (set_dataList v st) = proj st) →
  (∀ v st, proj (set_rowSensors v st) = proj st) →
  keeps proj renderManageList.
Proof.
  intros Ht Hd Hr. unfold renderManageList.
  apply keeps_bind; [by apply getAllSensors_keeps | intros l].
  apply keeps_bind; [by apply keeps_modify | intros _; by apply keeps_modify].
Qed.

Lemma toggle_commit_keeps_city cty l : keeps currentCity (toggle_commit cty l).
Proof.
  unfold toggle_commit.
  apply keeps_bind; [by apply saveAllSensors_keeps | intros _].
  apply keeps_bind; [by apply renderManageList_keeps | intros _].
  apply keeps_bind; [apply keeps_lift | intros filtered].
  apply keeps_bind; [by apply updateChartForSensors_keeps | intros _].
  apply keeps_bind; [apply keeps_gets | intros cw].
  by apply updateMapForSensors_keeps.
Qed.

Lemma delete_lookup_lt {A} (l : list A) (i j : nat) : (j < i)%nat → delete i l !! j = l !! j.
Proof. intros. by rewrite list_lookup_delete_lt. Qed.

Lemma delete_lookup_ge {A} (l : list A) (i j : nat) : (i ≤ j)%nat → delete i l !! j = l !! S j.
Proof. intros. by rewrite list_lookup_delete_ge. Qed.

(** ** Rehydration of one stored record *)

Lemma get_str (obj : object) k n : get obj k = JStr n ↔ obj !! k = Some (JStr n).
Proof.
  unfold get. destruct (obj !! k) as [v|]; simpl; split; congruence.
Qed.

Lemma get_absent (obj : object) k : obj !! k = None → get obj k = JUndefined.
Proof. unfold get. by intros ->. Qed.

Lemma construct_fields temp obj :
  sensor_of (construct temp obj) =
  {| sname := get obj "name";
     svalue := get obj "value";
     description := js_or (get obj "description") (JStr "");
     city := js_or (get obj "city") (JStr "");
     lat := js_or (get obj "lat") JNull;
     lon := js_or (get obj "lon") JNull |}.
Proof.
  unfold construct, new_TemperatureSensor, new_Sensor.
  rewrite !param_default_js_or by done. by destruct temp.
Qed.

Lemma construct_unit obj :
  unit_of (construct true obj) = js_or (get obj "unit") (JStr "°C").
Proof.
  unfold construct, new_TemperatureSensor. simpl.
  by rewrite param_default_js_or.
Qed.

Lemma construct_shape temp obj : is_TemperatureSensor (construct temp obj) ↔ temp = true.
Proof. destruct temp; simpl; split; done. Qed.

Lemma temp_in_name_includes obj :
  temp_in_name obj ↔
  ∃ n, get obj "name" = JStr n ∧ includes (toLowerCase n) "temp" = true.
Proof.
  unfold temp_in_name. split.
  - intros (n & pre & post & Hn & Hl). exists n. split; [by apply get_str|].
    apply includes_spec. eauto.
  - intros (n & Hn & (pre & post & Hl)%includes_spec).
    exists n, pre, post. split; [by apply get_str | done].
Qed.

(** When the test of [getAllSensors] returns, it answers the
    tag-or-substring question. *)
Lemma is_temperature_spec obj temp :
  is_temperature obj = Ok temp →
  (temp = true ↔ tagged obj ∨ temp_in_name obj).
Proof.
  unfold is_temperature. case_decide as Htag.
  - intros [= <-]. split; [|done]. intros _. left. by apply get_str.
  - assert (¬ tagged obj) as Hnt by (by intros ?%get_str).
    rewrite temp_in_name_includes.
    destruct (get obj "name") as [| |b|x|n] eqn:Hn.
    + intros [= <-]. split; [done|]. intros [?|(n & ? & _)]; done.
    + intros [= <-]. split; [done|]. intros [?|(n & ? & _)]; done.
    + destruct b; simpl; [done|].
      intros [= <-]. split; [done|]. intros [?|(n & ? & _)]; done.
    + destruct (truthy (JNum x)); simpl; [done|].
      intros [= <-]. split; [done|]. intros [?|(n & ? & _)]; done.
    + destruct n as [|a n]; simpl.
      * intros [= <-]. split; [done|].
        intros [?|(n & [= <-] & Hi)]; [done|]. simpl in Hi. done.
      * intros [= <-]. split.
        -- intros Hi. right. eauto.
        -- intros [?|(n' & [= <-] & Hi)]; done.
Qed.

(** On a record whose name is a string (or absent) the test does return. *)
Lemma is_temperature_typed obj :
  name_typed obj →
  ∃ temp, is_temperature obj = Ok temp
          ∧ (temp = true ↔ tagged obj ∨ temp_in_name obj).
Proof.
  intros Hty.
  assert (∃ temp, is_temperature obj = Ok temp) as [temp Ht].
  { unfold name_typed, is_temperature in *. case_decide; [by eexists|].
    destruct (get obj "name") as [| |b|x|n]; try done; simpl; try by eexists.
    destruct n; by eexists. }
  exists temp. split; [done | by apply is_temperature_spec].
Qed.

Lemma construct_rehydrated_as temp obj :
  (temp = true ↔ tagged obj ∨ temp_in_name obj) →
  rehydrated_as obj (construct temp obj).
Proof.
  intros Hshape. unfold rehydrated_as, getName, getValue.
  rewrite construct_shape, !construct_fields. simpl.
  split_and!; try done.
  - intros ->%get_absent. done.
  - intros ->%get_absent. done.
  - intros ->%get_absent. done.
  - intros ->%get_absent. done.
  - intros -> Hu. by rewrite construct_unit, (get_absent _ _ Hu).
  - unfold js_or. by intros ->.
  - unfold js_or. by intros ->.
  - unfold js_or. by intros ->.
  - unfold js_or. by intros ->.
  - intros -> Hu. rewrite construct_unit. unfold js_or. by rewrite Hu.
Qed.

Lemma load_typed raw :
  Forall name_typed raw → ∃ sensors, mapM rehydrate raw = Ok sensors.
Proof.
  induction raw as [|obj raw IH]; intros Hty.
  - by exists [].
  - inversion Hty as [|?? Hobj Hraw]; subst.
    destruct (IH Hraw) as (sensors & Hl).
    destruct (is_temperature_typed obj Hobj) as (temp & Ht & _).
    exists (construct temp obj :: sensors).
    rewrite mapM_result_cons, Hl. unfold rehydrate. by rewrite Ht.
Qed.

Lemma load_rehydrated_as raw sensors :
  mapM rehydrate raw = Ok sensors → Forall2 rehydrated_as raw sensors.
Proof.
  rewrite mapM_result_Ok. intros H. eapply Forall2_impl; [exact H|].
  clear H. intros obj e.
  unfold rehydrate. destruct (is_temperature obj) as [temp|] eqn:Ht; [|done].
  intros [= <-]. by apply construct_rehydrated_as, is_temperature_spec.
Qed.

(** C6. [getAllSensors] turns every stored record into a
    [TemperatureSensor] exactly when the record carries the type tag
    "temperature" or its name contains "temp" in any letter case, and into a
    plain [Sensor] otherwise; name and value are copied, a missing
    description or city becomes the empty string, a missing latitude or
    longitude becomes [null], and a missing unit becomes "°C".  It returns
    on every collection whose names are strings (or absent), as the data
    model has them. *)
Theorem getAllSensors_shape_and_defaults st :
  (Forall name_typed (default [] (localStorage st)) →
   ∃ sensors, outcome getAllSensors st = Ok sensors)
  ∧ (∀ sensors, outcome getAllSensors st = Ok sensors →
       Forall2 rehydrated_as (default [] (localStorage st)) sensors).
Proof.
  unfold outcome. rewrite getAllSensors_run. split.
  - apply load_typed.
  - apply load_rehydrated_as.
Qed.

Lemma getAllSensors_shape_and_defaults_witness :
  ∃ sensors,
    outcome getAllSensors
      (set_localStorage (Some [bare_record; equator_record]) fresh_page) = Ok sensors
    ∧ Forall2 rehydrated_as [bare_record; equator_record] sensors.
Proof.
  destruct (getAllSensors_shape_and_defaults
              (set_localStorage (Some [bare_record; equator_record]) fresh_page))
    as [Hreturns Hshape].
  destruct Hreturns as [sensors Hs]; [simpl; repeat constructor|].
  exists sensors. split; [exact Hs | exact (Hshape sensors Hs)].
Defined.

(** C9. A stored record whose latitude or longitude is 0, or any other
    falsy value, is rehydrated by [getAllSensors] with that coordinate
    [null]; consequently an instance whose latitude or longitude is exactly 0
    does not come back from a save followed by a load. *)
Theorem falsy_coordinate_loads_as_null obj :
  name_typed obj →
  ∃ e, rehydrate obj = Ok e
       ∧ (truthy (get obj "lat") = false → lat e = JNull)
       ∧ (truthy (get obj "lon") = false → lon e = JNull)
       ∧ (get obj "lat" = JNum (num_of_Z 0) → lat e = JNull)
       ∧ (get obj "lon" = JNum (num_of_Z 0) → lon e = JNull)
       ∧ (∀ saved : instance,
            lat saved = JNum (num_of_Z 0) ∨ lon saved = JNum (num_of_Z 0) →
            reload saved ≠ Ok saved
            ∧ ∀ loaded, reload saved = Ok loaded →
                (lat saved = JNum (num_of_Z 0) → lat loaded = JNull)
                ∧ (lon saved = JNum (num_of_Z 0) → lon loaded = JNull)).
Proof.
  intros Hty. destruct (is_temperature_typed obj Hty) as (temp & Ht & _).
  exists (construct temp obj). unfold rehydrate. rewrite Ht.
  split; [done|]. rewrite construct_fields. simpl. unfold js_or.
  split_and!.
  - by intros ->.
  - by intros ->.
  - by intros ->.
  - by intros ->.
  - intros saved Hzero. split.
    + intros Hok%reload_ok_iff. unfold roundtrip_ok in Hok.
      rewrite !andb_true_iff in Hok.
      destruct Hok as [[[_ Hlat] Hlon] _].
      destruct Hzero as [Hz|Hz]; rewrite Hz in *; done.
    + intros loaded Hl. destruct saved as [s|s u].
      * unfold reload, rehydrate in Hl.
        destruct (is_temperature (json_roundtrip (toJSON (Base s))))
          as [temp'|]; [|done].
        cbn [mbind result_bind] in Hl. injection Hl as <-.
        rewrite construct_fields. cbn [lat lon sensor_of].
        get_simpl. split; intros ->; done.
      * rewrite reload_Temperature in Hl. injection Hl as <-. simpl.
        split; intros ->; done.
Qed.

Lemma falsy_coordinate_loads_as_null_witness :
  ∃ e, rehydrate equator_record = Ok e ∧ lat e = JNull.
Proof.
  destruct (falsy_coordinate_loads_as_null equator_record I)
    as (e & He & _ & _ & Hlat & _).
  exists e. split; [exact He | apply Hlat; reflexivity].
Defined.

(** ** Round trip through the storage *)

Lemma save_then_load l st :
  outcome (saveAllSensors l;; getAllSensors) st = mapM reload l.
Proof.
  unfold outcome.
  rewrite (bind_run _ _ _ _ _ (saveAllSensors_run l st)).
  rewrite getAllSensors_run. simpl. apply load_stored_records.
Qed.

(** Instances typed as the data model has them satisfy [roundtrip_ok]
    when their coordinates are not zero: a string name, a finite number as
    value, string description and city, coordinates that are [null] or
    non-zero finite numbers, and a non-empty unit. *)
Lemma typed_roundtrip_ok n s1 m1 e1 d c la lo u a :
  (la = JNull ∨ ∃ sg m e, la = JNum (S754_finite sg m e)) →
  (lo = JNull ∨ ∃ sg m e, lo = JNum (S754_finite sg m e)) →
  roundtrip_ok
    (Temperature (mkSensor (JStr n) (JNum (S754_finite s1 m1 e1))
                           (JStr d) (JStr c) la lo) (JStr (String a u))) = true.
Proof.
  intros [->|(? & ? & ? & ->)] [->|(? & ? & ? & ->)]; unfold roundtrip_ok; simpl;
    destruct d, c; reflexivity.
Qed.

(** A reading taken on the equator is saved with latitude 0 and loaded
    with latitude [null] (see [falsy_coordinate_loads_as_null]). *)
Lemma save_load_loses_zero_latitude :
  lat quito_air = JNum (num_of_Z 0)
  ∧ outcome (saveAllSensors [quito_air];; getAllSensors) fresh_page
    = Ok [Temperature
            (mkSensor (JStr "Quito Air Quality") (JNum (num_of_Z 42))
                      (JStr "PM2.5 Index") (JStr "Quito") JNull
                      (JNum (num_of_Z (-78))))
            (JStr "AQI")]
  ∧ outcome (saveAllSensors [quito_air];; getAllSensors) fresh_page
    ≠ Ok [quito_air].
Proof.
  split; [reflexivity|]. split; [vm_compute; reflexivity|].
  rewrite save_then_load. intros H%reload_all_ok_iff.
  inversion H as [|?? Hq _]. vm_compute in Hq. discriminate.
Qed.




(** ** Weather analysis *)

(** On whole degrees and whole metres per second the binary64 comparisons
    against the thresholds are the integer ones. *)
Lemma thresholds_on_integers (z : Z) :
  (-150 ≤ z ≤ 150)%Z →
  SFleb (num_of_Z 18) (num_of_Z z) = (18 <=? z)%Z
  ∧ SFleb (num_of_Z z) (num_of_Z 32) = (z <=? 32)%Z
  ∧ SFltb (num_of_Z 35) (num_of_Z z) = (35 <? z)%Z
  ∧ SFltb (num_of_Z z) (num_of_Z 5) = (z <? 5)%Z
  ∧ SFltb (num_of_Z z) (num_of_Z 10) = (z <? 10)%Z
  ∧ SFltb (num_of_Z 15) (num_of_Z z) = (15 <? z)%Z.
Proof.
  intros Hz.
  assert (Forall (λ z,
            SFleb (num_of_Z 18) (num_of_Z z) = (18 <=? z)%Z
            ∧ SFleb (num_of_Z z) (num_of_Z 32) = (z <=? 32)%Z
            ∧ SFltb (num_of_Z 35) (num_of_Z z) = (35 <? z)%Z
            ∧ SFltb (num_of_Z z) (num_of_Z 5) = (z <? 5)%Z
            ∧ SFltb (num_of_Z z) (num_of_Z 10) = (z <? 10)%Z
            ∧ SFltb (num_of_Z 15) (num_of_Z z) = (15 <? z)%Z)
          (seqZ (-150) 301)) as Hall.
  { apply Forall_forall. intros y Hy.
    apply (bool_decide_unpack _).
    revert y Hy. apply Forall_forall.
    apply (bool_decide_unpack _). vm_compute. reflexivity. }
  rewrite Forall_forall in Hall. apply Hall.
  apply elem_of_seqZ. lia.
Qed.

Lemma isRain_spec main :
  isRain main = true ↔
  ∃ pre post, toLowerCase main = pre +:+ "rain" +:+ post
              ∨ toLowerCase main = pre +:+ "thunder" +:+ post.
Proof.
  unfold isRain. rewrite orb_true_iff, !includes_spec. split.
  - intros [(pre & post & H)|(pre & post & H)]; exists pre, post; tauto.
  - intros (pre & post & [H|H]); [left|right]; by exists pre, post.
Qed.

(** C2. The weather analysis is "Good Condition" exactly when the
    temperature lies in [18, 32], the condition is neither rain nor thunder
    and the wind is below 10; otherwise it is "Bad Condition" exactly when
    the temperature is above 35 or below 5, or it rains or thunders, or the
    wind is above 15; otherwise it is "Moderate".  The five sample readings
    of the specification are classified as it says.  Rain or thunder means
    that the condition text contains "rain" or "thunder" in any letter
    case. *)
Theorem weather_status_classification temp main wind :
  let good := SFleb (num_of_Z 18) temp = true ∧ SFleb temp (num_of_Z 32) = true
              ∧ isRain main = false ∧ SFltb wind (num_of_Z 10) = true in
  let bad := SFltb (num_of_Z 35) temp = true ∨ SFltb temp (num_of_Z 5) = true
             ∨ isRain main = true ∨ SFltb (num_of_Z 15) wind = true in
  (status temp main wind = "Good Condition" ↔ good)
  ∧ (status temp main wind = "Bad Condition" ↔ ¬ good ∧ bad)
  ∧ (status temp main wind = "Moderate" ↔ ¬ good ∧ ¬ bad)
  ∧ (isRain main = false →
     status (num_of_Z 25) main (num_of_Z 5) = "Good Condition")
  ∧ status (num_of_Z 40) main wind = "Bad Condition"
  ∧ status (num_of_Z 10) main (num_of_Z 20) = "Bad Condition"
  ∧ (isRain main = true → status (num_of_Z 15) main wind = "Bad Condition")
  ∧ (isRain main = false →
     status (num_of_Z 20) main (num_of_Z 12) = "Moderate")
  ∧ (isRain main = true ↔
     ∃ pre post, toLowerCase main = pre +:+ "rain" +:+ post
                 ∨ toLowerCase main = pre +:+ "thunder" +:+ post).
Proof.
  intros good bad. subst good bad. unfold status, analysis.
  split_and!; [..|apply isRain_spec].
  - destruct (SFleb (num_of_Z 18) temp), (SFleb temp (num_of_Z 32)),
      (isRain main), (SFltb wind (num_of_Z 10)),
      (SFltb (num_of_Z 35) temp), (SFltb temp (num_of_Z 5)),
      (SFltb (num_of_Z 15) wind); simpl; intuition (discriminate || congruence).
  - destruct (SFleb (num_of_Z 18) temp), (SFleb temp (num_of_Z 32)),
      (isRain main), (SFltb wind (num_of_Z 10)),
      (SFltb (num_of_Z 35) temp), (SFltb temp (num_of_Z 5)),
      (SFltb (num_of_Z 15) wind); simpl; intuition (discriminate || congruence).
  - destruct (SFleb (num_of_Z 18) temp), (SFleb temp (num_of_Z 32)),
      (isRain main), (SFltb wind (num_of_Z 10)),
      (SFltb (num_of_Z 35) temp), (SFltb temp (num_of_Z 5)),
      (SFltb (num_of_Z 15) wind); simpl; intuition (discriminate || congruence).
  - intros ->. reflexivity.
  - reflexivity.
  - destruct (isRain main); reflexivity.
  - intros ->. reflexivity.
  - intros ->. reflexivity.
Qed.

Lemma weather_status_classification_witness :
  status (num_of_Z 25) "Clear" (num_of_Z 5) = "Good Condition"
  ∧ status (num_of_Z 15) "Rain" (num_of_Z 3) = "Bad Condition"
  ∧ status (num_of_Z 20) "Clouds" (num_of_Z 12) = "Moderate".
Proof.
  split_and!.
  - apply (weather_status_classification (num_of_Z 25) "Clear" (num_of_Z 5)).
    reflexivity.
  - apply (weather_status_classification (num_of_Z 15) "Rain" (num_of_Z 3)).
    reflexivity.
  - apply (weather_status_classification (num_of_Z 20) "Clouds" (num_of_Z 12)).
    reflexivity.
Defined.

(** ** The toggle controller *)

(** C5 (what the code does). For "Water Quality" the toggle stores the text
    that [toFixed(1)] returns, not a number: with a draw of 0.5 the reading
    created for Paris has the string "7.5" as value, in the storage as well
    as in the instance that is loaded from it.  The other three categories
    get numbers. *)
Theorem water_quality_value_is_a_string rnd :
  (∃ s, (mockData "Water Quality" rnd).1.1 = JStr s ∧ ¬ is_number (JStr s))
  ∧ (∀ cat, cat ≠ WaterQuality → is_number (mockData (category_name cat) rnd).1.1)
  ∧ (let st' := exec (toggleSensor None one_half "Water Quality" true) paris_page in
     (λ o, get o "value") <$> default [] (localStorage st') = [JStr "7.5"]
     ∧ getValue <$> dataList st' = [JStr "7.5"]).
Proof.
  split_and!.
  - eexists. split; [reflexivity | simpl; tauto].
  - intros cat Hcat.
    destruct (mockData_category cat rnd) as (v & d & -> & _ & Hnum & _).
    by apply Hnum.
  - vm_compute. done.
Qed.

(** C8. A toggle without a selected city alerts, puts the clicked checkbox
    back to the state it had before the click, and completes without
    reading or writing the storage: the only effect recorded is the alert.
    When the four checkboxes have different [value] attributes no other
    checkbox changes either. *)
Theorem toggle_without_city fetched rnd cat st :
  selected_city (currentCity st) = None →
  let st' := exec (checkbox_change fetched rnd cat) st in
  outcome (checkbox_change fetched rnd cat) st = Ok tt
  ∧ trace st' = trace st ++ [EvAlert "Please search for a city first."]
  ∧ localStorage st' = localStorage st
  ∧ cb_checked (checkbox_of cat (checkboxes st'))
    = cb_checked (checkbox_of cat (checkboxes st))
  ∧ ((∀ other, other ≠ cat →
        cb_value (checkbox_of other (checkboxes st))
        ≠ cb_value (checkbox_of cat (checkboxes st))) →
     checkboxes st' = checkboxes st)
  ∧ ∀ type isChecked,
      toggleSensor fetched rnd type isChecked st =
      (Ok tt,
       set_checkboxes
         (forEach_checkbox
            (λ cb, if decide (cb_value cb = type)
                   then set_checked (negb isChecked) cb else cb)
            (checkboxes st))
         (set_trace (trace st ++ [EvAlert "Please search for a city first."]) st)).
Proof.
  intros Hsel st'.
  assert (∀ st0 type isChecked,
    selected_city (currentCity st0) = None →
    toggleSensor fetched rnd type isChecked st0 =
    (Ok tt,
     set_checkboxes
       (forEach_checkbox
          (λ cb, if decide (cb_value cb = type)
                 then set_checked (negb isChecked) cb else cb)
          (checkboxes st0))
       (set_trace (trace st0 ++ [EvAlert "Please search for a city first."]) st0)))
    as Hrun.
  { intros st0 type isChecked H0. unfold toggleSensor.
    rewrite (bind_run _ _ st0 (currentCity st0) st0) by reflexivity.
    rewrite H0. reflexivity. }
  assert (checkbox_change fetched rnd cat st =
          toggleSensor fetched rnd
            (cb_value (checkbox_of cat (flip_checkbox cat (checkboxes st))))
            (cb_checked (checkbox_of cat (flip_checkbox cat (checkboxes st))))
            (set_checkboxes (flip_checkbox cat (checkboxes st)) st)) as Hchange
    by reflexivity.
  subst st'. unfold exec, outcome. rewrite Hchange, Hrun by done.
  destruct st as [sto cc cw [a w s e] dl rs tr]. simpl in *.
  split_and!; try done.
  - destruct cat, a, w, s, e; simpl; rewrite decide_True by done;
      simpl; by rewrite negb_involutive.
  - intros Hdistinct.
    pose proof (Hdistinct AirQuality) as Ha.
    pose proof (Hdistinct WaterQuality) as Hw.
    pose proof (Hdistinct SoilQuality) as Hs.
    pose proof (Hdistinct EcosystemHealth) as He.
    destruct cat, a as [av ac], w as [wv wc], s as [sv sc], e as [ev ec];
      simpl in *; unfold forEach_checkbox, set_checked; simpl;
      repeat case_decide; try done;
      try (exfalso; first [by apply Ha | by apply Hw | by apply Hs | by apply He]);
      by rewrite negb_involutive.
  - intros type isChecked. by apply (Hrun (mkState sto cc cw _ dl rs tr)).
Qed.

Lemma toggle_without_city_witness :
  trace (exec (checkbox_change None one_half AirQuality) fresh_page)
  = [EvAlert "Please search for a city first."]
  ∧ checkboxes (exec (checkbox_change None one_half AirQuality) fresh_page)
    = sample_checkboxes.
Proof.
  pose proof (toggle_without_city None one_half AirQuality fresh_page eq_refl)
    as (_ & Htrace & _ & _ & Hboxes & _).
  split; [exact Htrace|]. apply Hboxes.
  intros other Hother. destruct other; done.
Defined.

(** C4. When a toggle-on has to fetch the weather and the fetch fails, the
    handler returns right after it: the storage, the manage list and the
    rest of the page are as before (the storage was read once), nothing is
    written and no instance is created. *)
Theorem failed_fetch_leaves_storage rnd type st cty l :
  selected_city (currentCity st) = Some cty →
  mapM rehydrate (default [] (localStorage st)) = Ok l →
  Forall (λ e, ¬ named (sensorName cty type) e) l →
  currentWeatherData st = None →
  let st' := exec (toggleSensor None rnd type true) st in
  toggleSensor None rnd type true st
  = (Ok tt, set_trace (trace st ++ [EvGetItem]) st)
  ∧ localStorage st' = localStorage st
  ∧ mapM rehydrate (default [] (localStorage st')) = Ok l
  ∧ dataList st' = dataList st
  ∧ trace st' = trace st ++ [EvGetItem].
Proof.
  intros Hsel Hload Hno Hw st'.
  assert (toggleSensor None rnd type true st
          = (Ok tt, set_trace (trace st ++ [EvGetItem]) st)) as Hrun.
  { unfold toggleSensor.
    rewrite (bind_run _ _ st (currentCity st) st) by reflexivity.
    rewrite Hsel.
    erewrite bind_run by (rewrite getAllSensors_run, Hload; reflexivity).
    rewrite findIndex_named_None by done.
    erewrite bind_run by reflexivity. simpl. rewrite Hw.
    erewrite bind_run by reflexivity.
    erewrite bind_run by reflexivity. simpl.
    f_equal. destruct st; simpl in *. by subst. }
  subst st'. unfold exec. rewrite Hrun. simpl. done.
Qed.

Lemma failed_fetch_leaves_storage_witness :
  localStorage (exec (toggleSensor None one_half "Air Quality" true) paris_offline_page)
  = localStorage paris_offline_page.
Proof.
  apply (failed_fetch_leaves_storage one_half "Air Quality" paris_offline_page
           "Paris" []); [reflexivity | reflexivity | constructor | reflexivity].
Defined.

(** C10. When several stored instances carry the name of the category that
    is toggled off, only the first of them in collection order is removed:
    what is written back is the collection without that one instance, with
    every later instance of the same name still in its place. *)
Theorem toggle_off_removes_first_match fetched rnd type st cty l1 e l2 :
  selected_city (currentCity st) = Some cty →
  mapM rehydrate (default [] (localStorage st)) = Ok (l1 ++ e :: l2) →
  Forall (λ x, ¬ named (sensorName cty type) x) l1 →
  named (sensorName cty type) e →
  let st' := exec (toggleSensor fetched rnd type false) st in
  localStorage st' = Some (stored_records (l1 ++ l2))
  ∧ S (length (l1 ++ l2)) = length (l1 ++ e :: l2)
  ∧ filter (named (sensorName cty type)) (l1 ++ l2)
    = filter (named (sensorName cty type)) l2
  ∧ filter (named (sensorName cty type)) (l1 ++ e :: l2)
    = e :: filter (named (sensorName cty type)) l2.
Proof.
  intros Hsel Hload Hl1 He st'. subst st'. unfold exec.
  rewrite (toggleSensor_off_run _ _ _ _ _ _ Hsel Hload).
  rewrite findIndex_named_first by done.
  rewrite delete_middle.
  assert (filter (named (sensorName cty type)) l1 = []) as Hnil.
  { clear -Hl1. induction Hl1 as [|x l Hx _ IH]; [done|].
    by rewrite filter_cons_False. }
  split_and!.
  - apply toggle_commit_storage.
  - rewrite !length_app. simpl. lia.
  - by rewrite filter_app, Hnil.
  - by rewrite filter_app, Hnil, filter_cons_True.
Qed.

Lemma toggle_off_removes_first_match_witness :
  localStorage
    (exec (toggleSensor None one_half "Air Quality" false)
          (set_localStorage (Some (stored_records [paris_soil; paris_air; paris_air]))
                            paris_page))
  = Some (stored_records [paris_soil; paris_air]).
Proof.
  apply (toggle_off_removes_first_match None one_half "Air Quality"
           (set_localStorage (Some (stored_records [paris_soil; paris_air; paris_air]))
                             paris_page)
           "Paris" [paris_soil] paris_air [paris_air]).
  - reflexivity.
  - vm_compute. reflexivity.
  - repeat constructor. vm_compute. discriminate.
  - reflexivity.
Defined.

(** ** What the script writes, it reads back unchanged *)

Lemma json_roundtrip_clean o : clean (json_roundtrip o).
Proof.
  intros k v. unfold json_roundtrip. rewrite lookup_omap.
  destruct (o !! k) as [w|]; simpl; [|done].
  destruct w as [| | |[[]| | |]|]; simpl; intros [= <-]; done.
Qed.

Lemma stored_records_clean l : Forall clean (stored_records l).
Proof.
  unfold stored_records. rewrite Forall_fmap. apply Forall_forall.
  intros o _. apply json_roundtrip_clean.
Qed.

Lemma clean_get obj k : clean obj → preserved (get obj k) = true.
Proof.
  intros Hc. unfold get. destruct (obj !! k) as [v|] eqn:E; [|done].
  exact (Hc k v E).
Qed.

Lemma kept_js_or d v :
  preserved v = true → kept_or_default d (js_or v d) = true.
Proof.
  intros Hv. unfold kept_or_default, js_or. destruct (truthy v) eqn:Ht.
  - by rewrite Ht, Hv, orb_true_r.
  - by rewrite bool_decide_eq_true_2.
Qed.

Lemma loaded_roundtrip_ok obj e :
  clean obj → rehydrate obj = Ok e → roundtrip_ok e = true.
Proof.
  intros Hc. unfold rehydrate.
  destruct (is_temperature obj) as [temp|] eqn:Ht; [|done].
  intros [= <-]. unfold roundtrip_ok.
  rewrite !construct_fields. cbn [sname svalue description city lat lon].
  rewrite !(clean_get _ _ Hc), !kept_js_or by (by apply clean_get). simpl.
  destruct temp.
  - pose proof (construct_unit obj) as Hu.
    unfold construct, new_TemperatureSensor in *. simpl in Hu. rewrite Hu.
    unfold js_or. destruct (truthy (get obj "unit")) eqn:Htu; [|done].
    by rewrite Htu, (clean_get _ _ Hc).
  - unfold construct, new_Sensor. simpl.
    by apply is_temperature_false_plain.
Qed.

Lemma loaded_all_roundtrip_ok raw l :
  Forall clean raw → mapM rehydrate raw = Ok l →
  Forall (λ e, roundtrip_ok e = true) l.
Proof.
  intros Hc Hl. apply mapM_result_Ok in Hl.
  induction Hl as [|obj e raw l He _ IH]; [constructor|].
  inversion Hc; subst. constructor; [by eapply loaded_roundtrip_ok | by apply IH].
Qed.

(** ** The delete button *)

Lemma delBtn_click_run fetched idx st :
  delBtn_click fetched idx st =
  (renderManageList;;
   cc ← gets currentCity;
   match selected_city cc with
   | Some cty => renderCityView fetched cty
   | None => mret tt
   end)
    (set_localStorage (Some (stored_records (delete idx (rowSensors st))))
       (set_trace (trace st ++ [EvSetItem (stored_records (delete idx (rowSensors st)))])
          (set_rowSensors (delete idx (rowSensors st)) st))).
Proof. reflexivity. Qed.

(** C7. The delete button of row [idx] takes the instance at that position,
    and only that one, out of the array that the rows share, and writes the
    remaining instances to the storage as they are and in their order; when
    they are instances that the storage reproduces, the manage list shows
    exactly them afterwards.  In particular, when the rows show what a
    storage written by the script holds, loading after the click gives what
    loading before it gave, without the instance of the row. *)
Theorem delete_row_persists_the_rest fetched (idx : nat) st :
  let sensors := rowSensors st in
  let st' := exec (delBtn_click fetched idx) st in
  localStorage st' = Some (stored_records (delete idx sensors))
  ∧ delete idx sensors = take idx sensors ++ drop (S idx) sensors
  ∧ (∀ j : nat, (j < idx)%nat → delete idx sensors !! j = sensors !! j)
  ∧ (∀ j : nat, (idx ≤ j)%nat → delete idx sensors !! j = sensors !! S j)
  ∧ ((idx < length sensors)%nat → S (length (delete idx sensors)) = length sensors)
  ∧ (Forall (λ e, roundtrip_ok e = true) sensors →
     dataList st' = delete idx sensors ∧ rowSensors st' = delete idx sensors)
  ∧ (Forall clean (default [] (localStorage st)) →
     mapM rehydrate (default [] (localStorage st)) = Ok sensors →
     mapM rehydrate (default [] (localStorage st')) = Ok (delete idx sensors)).
Proof.
  intros sensors st'.
  assert (localStorage st' = Some (stored_records (delete idx sensors))
          → (Forall clean (default [] (localStorage st)) →
             mapM rehydrate (default [] (localStorage st)) = Ok sensors →
             mapM rehydrate (default [] (localStorage st')) = Ok (delete idx sensors)))
    as Hreload.
  { intros -> Hclean Hload. simpl. rewrite load_stored_records.
    apply reload_all_ok_iff, Forall_delete.
    by eapply loaded_all_roundtrip_ok. }
  cut (localStorage st' = Some (stored_records (delete idx sensors))
       ∧ delete idx sensors = take idx sensors ++ drop (S idx) sensors
       ∧ (∀ j : nat, (j < idx)%nat → delete idx sensors !! j = sensors !! j)
       ∧ (∀ j : nat, (idx ≤ j)%nat → delete idx sensors !! j = sensors !! S j)
       ∧ ((idx < length sensors)%nat → S (length (delete idx sensors)) = length sensors)
       ∧ (Forall (λ e, roundtrip_ok e = true) sensors →
          dataList st' = delete idx sensors ∧ rowSensors st' = delete idx sensors)).
  { intros (H1 & H2 & H3 & H4 & H5 & H6). split_and!; try done. by apply Hreload. }
  clear Hreload.
  subst st'. unfold exec. rewrite delBtn_click_run.
  fold sensors. set (st1 := set_localStorage _ _).
  assert (keeps localStorage
            (cc ← gets currentCity;
             match selected_city cc with
             | Some cty => renderCityView fetched cty
             | None => mret tt
             end)) as Hk1.
  { apply keeps_bind; [apply keeps_gets|]. intros cc.
    destruct (selected_city cc); [by apply renderCityView_keeps | apply keeps_ret]. }
  split_and!.
  - change (localStorage (exec (renderManageList;;
              cc ← gets currentCity;
              match selected_city cc with
              | Some cty => renderCityView fetched cty
              | None => mret tt
              end) st1) = localStorage st1).
    apply keeps_bind; [apply renderManageList_keeps_storage | by intros _].
  - apply delete_take_drop.
  - intros j Hj. by apply delete_lookup_lt.
  - intros j Hj. by apply delete_lookup_ge.
  - intros Hlt. rewrite length_delete; [lia|]. by apply lookup_lt_is_Some_2.
  - intros Hok.
    assert (mapM rehydrate (default [] (localStorage st1)) = Ok (delete idx sensors))
      as Hl.
    { simpl. rewrite load_stored_records. apply reload_all_ok_iff.
      by apply Forall_delete. }
    rewrite (bind_run _ _ _ _ _ (renderManageList_run st1 _ Hl)).
    set (st2 := set_rowSensors _ _).
    split.
    + change (dataList (exec (cc ← gets currentCity;
               match selected_city cc with
               | Some cty => renderCityView fetched cty
               | None => mret tt
               end) st2) = dataList st2).
      apply keeps_bind; [apply keeps_gets|]. intros cc.
      destruct (selected_city cc); [by apply renderCityView_keeps | apply keeps_ret].
    + change (rowSensors (exec (cc ← gets currentCity;
               match selected_city cc with
               | Some cty => renderCityView fetched cty
               | None => mret tt
               end) st2) = rowSensors st2).
      apply keeps_bind; [apply keeps_gets|]. intros cc.
      destruct (selected_city cc); [by apply renderCityView_keeps | apply keeps_ret].
Qed.

Lemma delete_row_persists_the_rest_witness :
  dataList (exec (delBtn_click (Some paris_weather) 0)
                 (set_rowSensors [paris_soil; paris_air] paris_page))
  = [paris_air].
Proof.
  apply (delete_row_persists_the_rest (Some paris_weather) 0
           (set_rowSensors [paris_soil; paris_air] paris_page)).
  repeat constructor.
Defined.

(** ** Toggling a category on, then off *)

Lemma toggleSensor_keeps_city_on fetched rnd type st cty l w c :
  selected_city (currentCity st) = Some cty →
  mapM rehydrate (default [] (localStorage st)) = Ok l →
  Forall (λ e, ¬ named (sensorName cty type) e) l →
  weather_for st fetched = Some w →
  w_coord w = Some c →
  currentCity (exec (toggleSensor fetched rnd type true) st) = currentCity st.
Proof.
  intros Hsel Hload Hno Hw Hc. unfold exec.
  rewrite (toggleSensor_on_run _ _ _ _ _ _ _ _ Hsel Hload Hno Hw Hc).
  etrans; [apply (toggle_commit_keeps_city cty _ _) | reflexivity].
Qed.

Lemma category_unit_kept cat :
  js_or (json_read (JStr (category_unit cat))) (JStr "°C") = JStr (category_unit cat).
Proof. by destruct cat. Qed.

(** C3. With a city selected, weather coordinates at hand and no stored
    instance named "<city> <category>", toggling the category on appends
    exactly one instance to the collection and writes the collection back:
    a [TemperatureSensor] with that name, the selected city, the weather
    coordinates and the unit of the category.  The page then holds the old
    instances followed by the new one; toggling the category off takes out
    that one instance and writes back the old ones, all of them and nothing
    else. *)
Theorem toggle_on_appends_one_then_off_removes_it
    cat fetched rnd fetched' rnd' st cty l w c :
  selected_city (currentCity st) = Some cty →
  mapM rehydrate (default [] (localStorage st)) = Ok l →
  Forall (λ e, ¬ named (sensorName cty (category_name cat)) e) l →
  weather_for st fetched = Some w →
  w_coord w = Some c →
  let type := category_name cat in
  let st1 := exec (toggleSensor fetched rnd type true) st in
  let st2 := exec (toggleSensor fetched' rnd' type false) st1 in
  ∃ value desc kept shown,
    localStorage st1
    = Some (stored_records
              (l ++ [Temperature
                       (mkSensor (JStr (sensorName cty type)) value (JStr desc)
                          (JStr cty) (param_default JNull (coord_lat c))
                          (param_default JNull (coord_lon c)))
                       (JStr (category_unit cat))]))
    ∧ mapM rehydrate (default [] (localStorage st1)) = Ok (kept ++ [shown])
    ∧ dataList st1 = kept ++ [shown]
    ∧ length kept = length l
    ∧ Forall (λ e, ¬ named (sensorName cty type) e) kept
    ∧ named (sensorName cty type) shown
    ∧ is_TemperatureSensor shown
    ∧ unit_of shown = JStr (category_unit cat)
    ∧ (Forall (λ e, roundtrip_ok e = true) l → kept = l)
    ∧ localStorage st2 = Some (stored_records kept)
    ∧ dataList st2 = kept.
Proof.
  intros Hsel Hload Hno Hw Hc type st1 st2.
  destruct (mockData_category cat rnd) as (value & desc & Hmock & _ & _ & _).
  set (new := Temperature
                (mkSensor (JStr (sensorName cty type)) value (JStr desc)
                   (JStr cty) (param_default JNull (coord_lat c))
                   (param_default JNull (coord_lon c)))
                (JStr (category_unit cat))).
  assert (toggleSensor fetched rnd type true st =
          toggle_commit cty (l ++ [new])
            (set_currentWeatherData (Some w) (set_trace (trace st ++ [EvGetItem]) st)))
    as Hrun1.
  { rewrite (toggleSensor_on_run _ _ _ _ _ _ _ _ Hsel Hload Hno Hw Hc).
    rewrite Hmock. reflexivity. }
  destruct (loaded_reload _ _ Hload) as (kept & Hkept & Hnames).
  assert (∃ shown, reload new = Ok shown
                   ∧ named (sensorName cty type) shown
                   ∧ is_TemperatureSensor shown
                   ∧ unit_of shown = JStr (category_unit cat))
    as (shown & Hshown & Hnamed & Hshape & Hunit).
  { unfold new. rewrite reload_Temperature. eexists. split; [reflexivity|].
    split_and!; [done | done | apply category_unit_kept]. }
  assert (mapM reload (l ++ [new]) = Ok (kept ++ [shown])) as Hre.
  { apply mapM_result_app; [done|]. by rewrite mapM_result_cons, Hshown. }
  assert (localStorage st1 = Some (stored_records (l ++ [new]))) as Hsto1.
  { subst st1. unfold exec. rewrite Hrun1. apply toggle_commit_storage. }
  assert (mapM rehydrate (default [] (localStorage st1)) = Ok (kept ++ [shown]))
    as Hload1.
  { rewrite Hsto1. simpl. by rewrite load_stored_records. }
  assert (Forall (λ e, ¬ named (sensorName cty type) e) kept) as Hno1
    by (by eapply not_named_reload).
  assert (selected_city (currentCity st1) = Some cty) as Hsel1.
  { subst st1. by erewrite toggleSensor_keeps_city_on. }
  assert (toggleSensor fetched' rnd' type false st1 =
          toggle_commit cty kept (set_trace (trace st1 ++ [EvGetItem]) st1))
    as Hrun2.
  { rewrite (toggleSensor_off_run _ _ _ _ _ _ Hsel1 Hload1).
    rewrite findIndex_named_first by done.
    by rewrite delete_middle, app_nil_r. }
  exists value, desc, kept, shown. split_and!; try done.
  - subst st1. unfold exec. rewrite Hrun1. by apply toggle_commit_dataList.
  - by eapply mapM_result_length.
  - intros Hok%reload_all_ok_iff. congruence.
  - subst st2. unfold exec. rewrite Hrun2. apply toggle_commit_storage.
  - subst st2. unfold exec. rewrite Hrun2. apply toggle_commit_dataList.
    apply reload_all_ok_iff.
    assert (Forall (λ e, roundtrip_ok e = true) (kept ++ [shown])) as Hall.
    { eapply loaded_all_roundtrip_ok; [|exact Hload1].
      rewrite Hsto1. apply stored_records_clean. }
    by apply Forall_app in Hall as [? _].
Qed.

Lemma toggle_on_appends_one_then_off_removes_it_witness :
  ∃ kept shown,
    dataList
      (exec (toggleSensor None one_half "Air Quality" true)
            (set_localStorage (Some (stored_records [paris_soil])) paris_page))
    = kept ++ [shown]
    ∧ kept = [paris_soil]
    ∧ named "Paris Air Quality" shown
    ∧ localStorage
        (exec (toggleSensor None one_half "Air Quality" false)
           (exec (toggleSensor None one_half "Air Quality" true)
              (set_localStorage (Some (stored_records [paris_soil])) paris_page)))
      = Some (stored_records kept).
Proof.
  destruct (toggle_on_appends_one_then_off_removes_it
              AirQuality None one_half None one_half
              (set_localStorage (Some (stored_records [paris_soil])) paris_page)
              "Paris" [paris_soil]
              paris_weather (mkCoord (JNum (num_of_Z 48)) (JNum (num_of_Z 2))))
    as (value & desc & kept & shown & _ & _ & Hshown & _ & _ & Hnamed & _ & _
        & Hkept & Hsto & _).
  - reflexivity.
  - vm_compute. reflexivity.
  - repeat constructor. vm_compute. discriminate.
  - reflexivity.
  - reflexivity.
  - exists kept, shown. split_and!; [exact Hshown | | exact Hnamed | exact Hsto].
    apply Hkept. repeat constructor.
Defined.

(** * Further properties of the script *)

(** ** The ways a toggle can end *)

Lemma findIndex_named_Some n l i :
  findIndex_named n l = Some i →
  ∃ l1 e l2, l = l1 ++ e :: l2 ∧ length l1 = i
             ∧ Forall (λ x, ¬ named n x) l1 ∧ named n e.
Proof.
  unfold findIndex_named.
  destruct (list_find (named n) l) as [[j e]|] eqn:E; [|done].
  intros [= <-]. apply list_find_Some in E as (Hj & He & Hbefore).
  exists (take j l), e, (drop (S j) l). split_and!.
  - by rewrite take_drop_middle.
  - apply length_take_le. apply lookup_lt_Some in Hj. lia.
  - apply Forall_forall. intros x [k Hk]%list_elem_of_lookup_1.
    apply lookup_take_Some in Hk as [Hk Hlt]. by eapply Hbefore.
  - done.
Qed.

Lemma findIndex_named_None_inv n l :
  findIndex_named n l = None → Forall (λ x, ¬ named n x) l.
Proof.
  unfold findIndex_named.
  destruct (list_find (named n) l) as [[j e]|] eqn:E; [done|]. intros _.
  by apply list_find_None in E.
Qed.

(** A toggle either writes nothing and leaves the storage and the manage
    list alone, or it goes on to write a collection [l'] that is the loaded
    one, the loaded one with a new instance of the toggled name at the end,
    or the loaded one without its first instance of that name. *)
Lemma toggleSensor_cases fetched rnd type isChecked st :
  (localStorage (exec (toggleSensor fetched rnd type isChecked) st) = localStorage st
   ∧ dataList (exec (toggleSensor fetched rnd type isChecked) st) = dataList st
   ∧ rowSensors (exec (toggleSensor fetched rnd type isChecked) st) = rowSensors st
   ∧ currentCity (exec (toggleSensor fetched rnd type isChecked) st) = currentCity st)
  ∨ ∃ cty l l' st1,
      selected_city (currentCity st) = Some cty
      ∧ mapM rehydrate (default [] (localStorage st)) = Ok l
      ∧ toggleSensor fetched rnd type isChecked st = toggle_commit cty l' st1
      ∧ currentCity st1 = currentCity st
      ∧ (l' = l
         ∨ (isChecked = true
            ∧ Forall (λ x, ¬ named (sensorName cty type) x) l
            ∧ ∃ new, named (sensorName cty type) new
                     ∧ is_TemperatureSensor new ∧ l' = l ++ [new])
         ∨ (isChecked = false
            ∧ ∃ l1 e l2, l = l1 ++ e :: l2
                         ∧ Forall (λ x, ¬ named (sensorName cty type) x) l1
                         ∧ named (sensorName cty type) e
                         ∧ l' = l1 ++ l2)).
Proof.
  unfold exec.
  destruct (selected_city (currentCity st)) as [cty|] eqn:Hsel.
  2:{ left. unfold toggleSensor.
      rewrite (bind_run _ _ st (currentCity st) st) by reflexivity.
      rewrite Hsel. done. }
  destruct (mapM rehydrate (default [] (localStorage st))) as [l|] eqn:Hload.
  2:{ left. unfold toggleSensor.
      rewrite (bind_run _ _ st (currentCity st) st) by reflexivity.
      rewrite Hsel.
      erewrite bind_throw by (rewrite getAllSensors_run, Hload; reflexivity).
      done. }
  destruct isChecked.
  - destruct (findIndex_named (sensorName cty type) l) as [i|] eqn:Hfind.
    + right. exists cty, l, l, (set_trace (trace st ++ [EvGetItem]) st).
      split_and!; try done; [|by left].
      unfold toggleSensor.
      rewrite (bind_run _ _ st (currentCity st) st) by reflexivity.
      rewrite Hsel.
      erewrite bind_run by (rewrite getAllSensors_run, Hload; reflexivity).
      by rewrite Hfind.
    + pose proof (findIndex_named_None_inv _ _ Hfind) as Hno.
      destruct (weather_for st fetched) as [w|] eqn:Hw.
      * destruct (w_coord w) as [c|] eqn:Hc.
        -- right.
           exists cty, l,
             (l ++ [new_TemperatureSensor (JStr (sensorName cty type))
                      (mockData type rnd).1.1 (mockData type rnd).2
                      (JStr cty) (coord_lat c) (coord_lon c) (mockData type rnd).1.2]),
             (set_currentWeatherData (Some w) (set_trace (trace st ++ [EvGetItem]) st)).
           split_and!; try done.
           ++ by apply toggleSensor_on_run.
           ++ right. left. split_and!; try done.
              refine (ex_intro _ _ (conj _ (conj _ eq_refl))); done.
        -- left. unfold toggleSensor.
           rewrite (bind_run _ _ st (currentCity st) st) by reflexivity.
           rewrite Hsel.
           erewrite bind_run by (rewrite getAllSensors_run, Hload; reflexivity).
           rewrite Hfind.
           erewrite bind_run by reflexivity.
           unfold weather_for in Hw.
           destruct (mockData type rnd) as [[value u] desc]. simpl.
           destruct (currentWeatherData st) as [w'|] eqn:Hcw.
           ++ injection Hw as ->.
              erewrite bind_run by reflexivity.
              erewrite bind_run by reflexivity. simpl. rewrite Hcw.
              erewrite bind_throw by (unfold lift; rewrite Hc; reflexivity).
              done.
           ++ subst fetched.
              erewrite bind_run by reflexivity.
              erewrite bind_run by reflexivity. simpl.
              erewrite bind_throw by (unfold lift; rewrite Hc; reflexivity).
              done.
      * left. unfold weather_for in Hw.
        destruct (currentWeatherData st) as [w'|] eqn:Hcw; [done|].
        subst fetched. unfold toggleSensor.
        rewrite (bind_run _ _ st (currentCity st) st) by reflexivity.
        rewrite Hsel.
        erewrite bind_run by (rewrite getAllSensors_run, Hload; reflexivity).
        rewrite Hfind.
        erewrite bind_run by reflexivity. simpl. rewrite Hcw.
        erewrite bind_run by reflexivity.
        erewrite bind_run by reflexivity. done.
  - right.
    exists cty, l,
      (match findIndex_named (sensorName cty type) l with
       | Some i => delete i l
       | None => l
       end),
      (set_trace (trace st ++ [EvGetItem]) st).
    split_and!; try done.
    + by apply toggleSensor_off_run.
    + destruct (findIndex_named (sensorName cty type) l) as [i|] eqn:Hfind;
        [|by left].
      right. right. split; [done|].
      destruct (findIndex_named_Some _ _ _ Hfind) as (l1 & e & l2 & -> & <- & ? & ?).
      exists l1, e, l2. split_and!; try done. by rewrite delete_middle.
Qed.

(** ** What a toggle leaves alone *)

Lemma named_inj n n' e : named n e → named n' e → n = n'.
Proof. unfold named. congruence. Qed.

Lemma filter_named_nil n l :
  Forall (λ x, ¬ named n x) l → filter (named n) l = [].
Proof.
  induction 1 as [|x l Hx _ IH]; [done|]. by rewrite filter_cons_False.
Qed.

Lemma filter_other_name n n' e :
  named n e → n' ≠ n → filter (named n') [e] = [].
Proof.
  intros He Hne. rewrite filter_cons_False; [done|].
  intros He'. apply Hne. by eapply named_inj.
Qed.

(** X1. Whatever a toggle does, it touches no instance of another name:
    either it leaves the storage as it is, or it writes a collection in
    which the instances of every name other than "<city> <type>" are those
    that were loaded, in the same order. *)
Theorem toggle_touches_only_its_name fetched rnd type isChecked st :
  localStorage (exec (toggleSensor fetched rnd type isChecked) st) = localStorage st
  ∨ ∃ cty l l',
      selected_city (currentCity st) = Some cty
      ∧ mapM rehydrate (default [] (localStorage st)) = Ok l
      ∧ localStorage (exec (toggleSensor fetched rnd type isChecked) st)
        = Some (stored_records l')
      ∧ ∀ n, n ≠ sensorName cty type →
             filter (named n) l' = filter (named n) l.
Proof.
  destruct (toggleSensor_cases fetched rnd type isChecked st)
    as [(H & _)|(cty & l & l' & st1 & Hsel & Hload & Hrun & _ & Hshape)];
    [by left|].
  right. exists cty, l, l'. split_and!; try done.
  - unfold exec. rewrite Hrun. apply toggle_commit_storage.
  - intros n Hn.
    destruct Hshape as [->|[(_ & _ & new & Hnew & _ & ->)
                           |(_ & l1 & e & l2 & -> & _ & He & ->)]].
    + done.
    + by rewrite filter_app, (filter_other_name _ _ _ Hnew Hn), app_nil_r.
    + rewrite !filter_app. f_equal.
      change (e :: l2) with ([e] ++ l2).
      by rewrite filter_app, (filter_other_name _ _ _ He Hn).
Qed.

(** Every instance of the collection can be saved and loaded, and keeps
    its name when it is a string. *)
Lemma reload_each (l : list instance) :
  Forall (λ e, ∃ e', reload e = Ok e' ∧ getName e' = json_read (getName e)) l →
  ∃ la, mapM reload l = Ok la
        ∧ Forall2 (λ e e', getName e' = json_read (getName e)) l la.
Proof.
  induction 1 as [|e l (e' & He & Hn) _ (la & Hla & H2)].
  - exists []. split; [done | constructor].
  - exists (e' :: la). split; [|by constructor].
    by rewrite mapM_result_cons, He, Hla.
Qed.

Lemma loaded_each_reload raw l :
  mapM rehydrate raw = Ok l →
  Forall (λ e, ∃ e', reload e = Ok e' ∧ getName e' = json_read (getName e)) l.
Proof.
  rewrite mapM_result_Ok. induction 1 as [|obj e raw l He _ IH]; constructor.
  - by eapply rehydrate_reload.
  - done.
Qed.

Lemma Temperature_reload e :
  is_TemperatureSensor e →
  ∃ e', reload e = Ok e' ∧ getName e' = json_read (getName e).
Proof.
  destruct e as [s|s u]; [done|]. intros _.
  rewrite reload_Temperature. eexists. split; [reflexivity | done].
Qed.

Lemma filter_named_reload n (l la : list instance) :
  Forall2 (λ e e', getName e' = json_read (getName e)) l la →
  length (filter (named n) la) = length (filter (named n) l).
Proof.
  induction 1 as [|e e' l la He _ IH]; [done|].
  assert (named n e' ↔ named n e) as Hiff.
  { unfold named. rewrite He. apply json_read_str. }
  destruct (decide (named n e)) as [Hn|Hn].
  - rewrite (filter_cons_True _ e) by done.
    rewrite (filter_cons_True _ e') by (by apply Hiff). simpl. by rewrite IH.
  - rewrite (filter_cons_False _ e) by done.
    rewrite (filter_cons_False _ e') by (by rewrite Hiff). done.
Qed.

(** X2. The toggle flow never makes the storage unloadable and never
    introduces a second instance of a name: when the stored collection loads
    and has pairwise different names, the same holds after any toggle. *)
Theorem toggle_keeps_names_unique fetched rnd type isChecked st l :
  mapM rehydrate (default [] (localStorage st)) = Ok l →
  unique_names l →
  ∃ l2,
    mapM rehydrate
      (default [] (localStorage (exec (toggleSensor fetched rnd type isChecked) st)))
    = Ok l2
    ∧ unique_names l2.
Proof.
  intros Hload Huniq.
  destruct (toggleSensor_cases fetched rnd type isChecked st)
    as [(-> & _)|(cty & l0 & l' & st1 & Hsel & Hload' & Hrun & _ & Hshape)];
    [by exists l|].
  rewrite Hload in Hload'. injection Hload' as <-.
  assert (localStorage (exec (toggleSensor fetched rnd type isChecked) st)
          = Some (stored_records l')) as ->.
  { unfold exec. rewrite Hrun. apply toggle_commit_storage. }
  simpl. rewrite load_stored_records.
  pose proof (loaded_each_reload _ _ Hload) as Heach.
  assert (Forall (λ e, ∃ e', reload e = Ok e'
                            ∧ getName e' = json_read (getName e)) l'
          ∧ unique_names l') as [Heach' Huniq'].
  { destruct Hshape as [->|[(_ & Hno & new & Hnew & Htemp & ->)
                           |(_ & l1 & e & l2 & -> & _ & He & ->)]].
    - done.
    - split.
      + apply Forall_app. split; [done|].
        constructor; [by apply Temperature_reload | constructor].
      + intros n. rewrite filter_app, length_app.
        destruct (decide (n = sensorName cty type)) as [->|Hn].
        * rewrite (filter_named_nil _ _ Hno).
          rewrite filter_cons_True by done. simpl. lia.
        * rewrite (filter_other_name _ _ _ Hnew Hn). simpl.
          specialize (Huniq n). lia.
    - apply Forall_app in Heach as [H1 H2]. inversion H2; subst. split.
      + by apply Forall_app.
      + intros n. specialize (Huniq n).
        rewrite filter_app, length_app in *.
        change (e :: l2) with ([e] ++ l2) in Huniq.
        rewrite filter_app, length_app in Huniq. lia. }
  destruct (reload_each _ Heach') as (l2 & Hl2 & Hnames).
  exists l2. split; [done|].
  intros n. rewrite (filter_named_reload _ _ _ Hnames). apply Huniq'.
Qed.

Lemma toggle_keeps_names_unique_witness :
  ∃ l2,
    mapM rehydrate
      (default [] (localStorage
         (exec (toggleSensor None one_half "Air Quality" true) paris_air_page)))
    = Ok l2
    ∧ unique_names l2.
Proof.
  apply (toggle_keeps_names_unique None one_half "Air Quality" true
           paris_air_page [paris_air]).
  - vm_compute. reflexivity.
  - intros n. simpl. destruct (decide (named n paris_air)).
    + rewrite filter_cons_True by done. simpl. lia.
    + rewrite filter_cons_False by done. simpl. lia.
Defined.

(** ** Toggles that find the checkbox state already in place *)

Lemma findIndex_named_Exists n l :
  Exists (named n) l → is_Some (findIndex_named n l).
Proof.
  intros (x & Hx & Hn)%Exists_exists. unfold findIndex_named.
  destruct (list_find_elem_of (named n) l x Hx Hn) as [[i y] ->]. by eexists.
Qed.

Lemma toggle_commit_keeps_weather cty l : keeps currentWeatherData (toggle_commit cty l).
Proof.
  unfold toggle_commit.
  apply keeps_bind; [by apply saveAllSensors_keeps | intros _].
  apply keeps_bind; [by apply renderManageList_keeps | intros _].
  apply keeps_bind; [apply keeps_lift | intros filtered].
  apply keeps_bind; [by apply updateChartForSensors_keeps | intros _].
  apply keeps_bind; [apply keeps_gets | intros cw].
  by apply updateMapForSensors_keeps.
Qed.

(** X3. Checking a category whose instance already exists, or unchecking
    one that has none, adds and removes nothing: the loaded collection is
    written back as it is, the weather is neither fetched nor its cache
    touched; on a storage written by the script the same instances load
    afterwards. *)
Theorem toggle_in_place_keeps_collection fetched rnd type (isChecked : bool) st cty l :
  selected_city (currentCity st) = Some cty →
  mapM rehydrate (default [] (localStorage st)) = Ok l →
  (if isChecked
   then Exists (named (sensorName cty type)) l
   else Forall (λ x, ¬ named (sensorName cty type) x) l) →
  let st' := exec (toggleSensor fetched rnd type isChecked) st in
  localStorage st' = Some (stored_records l)
  ∧ currentWeatherData st' = currentWeatherData st
  ∧ (Forall clean (default [] (localStorage st)) →
     mapM rehydrate (default [] (localStorage st')) = Ok l
     ∧ dataList st' = l).
Proof.
  intros Hsel Hload Hstate st'.
  assert (toggleSensor fetched rnd type isChecked st
          = toggle_commit cty l (set_trace (trace st ++ [EvGetItem]) st)) as Hrun.
  { destruct isChecked.
    - destruct (findIndex_named_Exists _ _ Hstate) as [i Hi].
      unfold toggleSensor.
      rewrite (bind_run _ _ st (currentCity st) st) by reflexivity.
      rewrite Hsel.
      erewrite bind_run by (rewrite getAllSensors_run, Hload; reflexivity).
      by rewrite Hi.
    - rewrite (toggleSensor_off_run _ _ _ _ _ _ Hsel Hload).
      by rewrite findIndex_named_None. }
  subst st'. unfold exec. rewrite Hrun.
  assert (localStorage (toggle_commit cty l (set_trace (trace st ++ [EvGetItem]) st)).2
          = Some (stored_records l)) as Hsto by apply toggle_commit_storage.
  split_and!.
  - done.
  - etrans; [apply (toggle_commit_keeps_weather cty l _) | reflexivity].
  - intros Hclean.
    assert (mapM reload l = Ok l) as Hre.
    { apply reload_all_ok_iff. by eapply loaded_all_roundtrip_ok. }
    split.
    + rewrite Hsto. simpl. by rewrite load_stored_records.
    + by apply toggle_commit_dataList.
Qed.

Lemma toggle_in_place_keeps_collection_witness :
  dataList (exec (toggleSensor None one_half "Air Quality" true) paris_air_page)
  = [paris_air].
Proof.
  apply (toggle_in_place_keeps_collection None one_half "Air Quality" true
           paris_air_page "Paris" [paris_air]).
  - reflexivity.
  - vm_compute. reflexivity.
  - simpl. apply Exists_cons_hd. reflexivity.
  - simpl. apply stored_records_clean.
Defined.

(** ** The weather of a toggle *)

(** X4. The weather is fetched by a toggle only to create an instance
    while nothing is cached: with weather data cached, or when unchecking,
    the handler does the same whatever a fetch would have returned. *)
Theorem toggle_fetches_only_without_cache fetched fetched' rnd type isChecked st :
  is_Some (currentWeatherData st) ∨ isChecked = false →
  toggleSensor fetched rnd type isChecked st
  = toggleSensor fetched' rnd type isChecked st.
Proof.
  intros Hcase. unfold toggleSensor.
  rewrite !(bind_run _ _ st (currentCity st) st) by reflexivity.
  destruct (selected_city (currentCity st)) as [cty|]; [|done].
  destruct (mapM rehydrate (default [] (localStorage st))) as [l|] eqn:Hload.
  2:{ by rewrite !(bind_throw _ _ st (set_trace (trace st ++ [EvGetItem]) st))
        by (rewrite getAllSensors_run, Hload; reflexivity). }
  rewrite !(bind_run _ _ st l (set_trace (trace st ++ [EvGetItem]) st))
    by (rewrite getAllSensors_run, Hload; reflexivity).
  destruct isChecked; [|done].
  destruct Hcase as [[w Hw]|]; [|done].
  destruct (findIndex_named (sensorName cty type) l); [done|].
  rewrite !(bind_run _ _ (set_trace (trace st ++ [EvGetItem]) st) (Some w)
              (set_trace (trace st ++ [EvGetItem]) st))
    by (unfold gets; simpl; by rewrite Hw).
  reflexivity.
Qed.

Lemma toggle_fetches_only_without_cache_witness :
  toggleSensor None one_half "Water Quality" true paris_page
  = toggleSensor (Some nowhere_weather) one_half "Water Quality" true paris_page.
Proof.
  apply (toggle_fetches_only_without_cache None (Some nowhere_weather) one_half
           "Water Quality" true paris_page).
  left. by eexists.
Defined.

(** X5. When the weather data at hand has no coordinates, a toggle-on for
    a new name throws at the construction of the instance: nothing is
    written, the manage list stays, and the data remains cached, so that
    later toggles meet the same data without fetching again. *)
Theorem toggle_without_coordinates_throws fetched rnd type st cty l w :
  selected_city (currentCity st) = Some cty →
  mapM rehydrate (default [] (localStorage st)) = Ok l →
  Forall (λ x, ¬ named (sensorName cty type) x) l →
  weather_for st fetched = Some w →
  w_coord w = None →
  toggleSensor fetched rnd type true st
  = (TypeError,
     set_currentWeatherData (Some w) (set_trace (trace st ++ [EvGetItem]) st)).
Proof.
  intros Hsel Hload Hno Hw Hc. unfold toggleSensor.
  rewrite (bind_run _ _ st (currentCity st) st) by reflexivity.
  rewrite Hsel.
  erewrite bind_run by (rewrite getAllSensors_run, Hload; reflexivity).
  rewrite findIndex_named_None by done.
  erewrite bind_run by reflexivity.
  unfold weather_for in Hw.
  destruct (mockData type rnd) as [[value u] desc]. simpl.
  destruct (currentWeatherData st) as [w'|] eqn:Hcw.
  - injection Hw as ->.
    erewrite bind_run by reflexivity.
    erewrite bind_run by reflexivity. simpl. rewrite Hcw.
    erewrite bind_throw by (unfold lift; rewrite Hc; reflexivity).
    f_equal. destruct st; simpl in *. by subst.
  - subst fetched.
    erewrite bind_run by reflexivity.
    erewrite bind_run by reflexivity. simpl.
    erewrite bind_throw by (unfold lift; rewrite Hc; reflexivity).
    done.
Qed.

Lemma toggle_without_coordinates_throws_witness :
  outcome (toggleSensor (Some nowhere_weather) one_half "Air Quality" true)
          paris_offline_page = TypeError
  ∧ localStorage (exec (toggleSensor (Some nowhere_weather) one_half "Air Quality" true)
                       paris_offline_page) = Some [].
Proof.
  unfold outcome, exec.
  rewrite (toggle_without_coordinates_throws (Some nowhere_weather) one_half
             "Air Quality" paris_offline_page "Paris" [] nowhere_weather);
    [done | reflexivity | reflexivity | constructor | reflexivity | reflexivity].
Defined.

(** ** A record that cannot be loaded *)

Lemma rehydrate_error obj : rehydrate obj = TypeError ↔ unloadable obj = true.
Proof.
  unfold rehydrate, is_temperature, unloadable.
  case_decide as Htag.
  - rewrite bool_decide_eq_true_2 by done. simpl. done.
  - rewrite bool_decide_eq_false_2 by done. simpl.
    destruct (get obj "name") as [| |b|x|n]; simpl; try done.
    + by destruct b.
    + destruct x; simpl; done.
    + destruct n; simpl; done.
Qed.

Lemma mapM_result_error {A B} (f : A → result B) l :
  mapM f l = TypeError ↔ Exists (λ x, f x = TypeError) l.
Proof.
  induction l as [|x l IH].
  - split; [done | by inversion 1].
  - rewrite mapM_result_cons, Exists_cons, <- IH.
    destruct (f x) as [y|], (mapM f l) as [k|]; simpl;
      intuition (done || discriminate).
Qed.

(** X6. One record that cannot be loaded blocks the page.  When the stored
    array holds a record with no type tag and a truthy name that is not a
    string, [getAllSensors] throws; rendering the manage list throws and
    leaves the rows as they were, and every toggle with a city selected
    throws before it writes or alerts anything. *)
Theorem unloadable_record_blocks_the_page st :
  Exists (λ obj, unloadable obj = true) (default [] (localStorage st)) →
  outcome getAllSensors st = TypeError
  ∧ renderManageList st = (TypeError, set_trace (trace st ++ [EvGetItem]) st)
  ∧ ∀ fetched rnd type isChecked cty,
      selected_city (currentCity st) = Some cty →
      toggleSensor fetched rnd type isChecked st
      = (TypeError, set_trace (trace st ++ [EvGetItem]) st).
Proof.
  intros Hbad.
  assert (mapM rehydrate (default [] (localStorage st)) = TypeError) as Hload.
  { apply mapM_result_error. eapply Exists_impl; [exact Hbad|].
    intros obj. apply rehydrate_error. }
  split_and!.
  - unfold outcome. by rewrite getAllSensors_run.
  - unfold renderManageList.
    by erewrite bind_throw by (rewrite getAllSensors_run, Hload; reflexivity).
  - intros fetched rnd type isChecked cty Hsel. unfold toggleSensor.
    rewrite (bind_run _ _ st (currentCity st) st) by reflexivity.
    rewrite Hsel.
    by erewrite bind_throw by (rewrite getAllSensors_run, Hload; reflexivity).
Qed.

Lemma unloadable_record_blocks_the_page_witness :
  outcome getAllSensors
    (set_localStorage (Some [bare_record; numbered_record]) paris_page)
  = TypeError
  ∧ renderManageList
      (set_localStorage (Some [bare_record; numbered_record]) paris_page)
    = (TypeError,
       set_trace [EvGetItem]
         (set_localStorage (Some [bare_record; numbered_record]) paris_page))
  ∧ toggleSensor None one_half "Air Quality" true
      (set_localStorage (Some [bare_record; numbered_record]) paris_page)
    = (TypeError,
       set_trace [EvGetItem]
         (set_localStorage (Some [bare_record; numbered_record]) paris_page)).
Proof.
  destruct (unloadable_record_blocks_the_page
              (set_localStorage (Some [bare_record; numbered_record]) paris_page))
    as (Hget & Hlist & Htoggle).
  - simpl. apply Exists_cons_tl, Exists_cons_hd. reflexivity.
  - split_and!; [exact Hget | exact Hlist |].
    apply (Htoggle None one_half "Air Quality" true "Paris"). reflexivity.
Defined.

(** ** Collections that come from the storage *)

(** X7. What [getAllSensors] returns from a storage written by
    [saveAllSensors] is stable: saving that collection and loading again
    gives the same instances, and the storage it is saved to is again one
    that [saveAllSensors] wrote. *)
Theorem load_save_load st st' l :
  Forall clean (default [] (localStorage st)) →
  outcome getAllSensors st = Ok l →
  outcome (saveAllSensors l;; getAllSensors) st' = Ok l
  ∧ Forall clean (default [] (localStorage (exec (saveAllSensors l) st'))).
Proof.
  unfold outcome at 1. rewrite getAllSensors_run. simpl. intros Hclean Hload.
  split.
  - rewrite save_then_load. apply reload_all_ok_iff.
    by eapply loaded_all_roundtrip_ok.
  - apply stored_records_clean.
Qed.

Lemma load_save_load_witness :
  outcome (saveAllSensors [paris_air];; getAllSensors) fresh_page = Ok [paris_air].
Proof.
  apply (load_save_load paris_air_page fresh_page [paris_air]).
  - simpl. apply stored_records_clean.
  - vm_compute. reflexivity.
Defined.

(** ** Start-up *)

(** X8. Start-up never destroys a stored collection: an item that is there
    is left as it is, an absent one becomes the empty array, and in both
    cases loading gives what it gave before; when the collection loads, the
    manage list shows it. *)
Theorem script_init_keeps_collection st :
  let st' := exec script_init st in
  mapM rehydrate (default [] (localStorage st'))
  = mapM rehydrate (default [] (localStorage st))
  ∧ (is_Some (localStorage st) → localStorage st' = localStorage st)
  ∧ ∀ l, mapM rehydrate (default [] (localStorage st)) = Ok l →
         outcome script_init st = Ok tt
         ∧ is_Some (localStorage st')
         ∧ dataList st' = l ∧ rowSensors st' = l.
Proof.
  intros st'. subst st'. unfold exec, outcome, script_init.
  destruct (mapM rehydrate (default [] (localStorage st))) as [l|] eqn:Hload.
  - rewrite (bind_run _ _ _ _ _ (renderManageList_run st l Hload)).
    erewrite bind_run by reflexivity.
    erewrite bind_run by reflexivity. simpl.
    destruct (localStorage st) as [raw|] eqn:Hsto.
    + erewrite bind_run by reflexivity.
      erewrite renderManageList_run by (simpl; rewrite Hsto; exact Hload).
      simpl. rewrite Hsto. split_and!; try done.
      intros l' [= <-]. split_and!; try done.
    + erewrite bind_run by reflexivity.
      erewrite renderManageList_run by (simpl; reflexivity).
      simpl. simpl in Hload. injection Hload as <-.
      split_and!; try done.
      intros l' [= <-]. split_and!; try done.
  - erewrite bind_throw by
      (unfold renderManageList;
       erewrite bind_throw by (rewrite getAllSensors_run, Hload; reflexivity);
       reflexivity).
    simpl. rewrite Hload. split_and!; try done.
Qed.

(** ** The city view *)

Lemma updateMapForSensors_run ss fla flo st :
  updateMapForSensors ss fla flo st
  = (Ok tt, set_trace (trace st ++ map_events ss fla flo) st).
Proof.
  unfold updateMapForSensors, map_events.
  erewrite bind_run by reflexivity.
  destruct ss as [|first rest].
  - destruct (_ && _); unfold emit, modify, mret, M_ret; simpl;
      rewrite <- ?app_assoc; reflexivity.
  - erewrite bind_run by reflexivity.
    destruct (truthy (lat first) && truthy (lon first));
      [|destruct (_ && _)];
      unfold emit, modify, mret, M_ret; simpl;
      rewrite <- ?app_assoc; reflexivity.
Qed.





Ltac city_view_keeps :=
  repeat first
    [ apply keeps_ret
    | apply keeps_lift
    | apply keeps_gets
    | apply keeps_emit; done
    | apply keeps_modify; done
    | apply getAllSensors_keeps; done
    | apply updateChartForSensors_keeps; done
    | apply updateMapForSensors_keeps; done
    | apply sync_checkboxes_keeps; done
    | apply keeps_bind; [|intros ?]
    | match goal with |- keeps _ (match ?x with _ => _ end) => destruct x end ].

Lemma renderCityView_sets_city fetched cty st :
  currentCity (exec (renderCityView fetched cty) st) = Some cty.
Proof.
  unfold exec, renderCityView.
  erewrite bind_run by reflexivity.
  erewrite bind_run by reflexivity.
  match goal with |- currentCity (snd (?m ?s)) = _ =>
    enough (keeps currentCity m) as Hk
      by (etrans; [apply (Hk s) | reflexivity]) end.
  city_view_keeps.
Qed.

Lemma renderCityView_sets_weather fetched cty st :
  currentWeatherData (exec (renderCityView fetched cty) st) = fetched.
Proof.
  unfold exec, renderCityView.
  erewrite bind_run by reflexivity.
  erewrite bind_run by reflexivity.
  match goal with |- currentWeatherData (snd (?m ?s)) = _ =>
    enough (keeps currentWeatherData m) as Hk
      by (etrans; [apply (Hk s) | reflexivity]) end.
  city_view_keeps.
Qed.

(** X9. [renderCityView] always selects the city and stores the result of
    the fetch as current weather data, a failed fetch included, and never
    changes the storage or the rows of the manage list. *)
Theorem renderCityView_selects_and_never_writes fetched cty st :
  let st' := exec (renderCityView fetched cty) st in
  currentCity st' = Some cty
  ∧ currentWeatherData st' = fetched
  ∧ localStorage st' = localStorage st
  ∧ dataList st' = dataList st
  ∧ rowSensors st' = rowSensors st.
Proof.
  intros st'. subst st'. split_and!.
  - apply renderCityView_sets_city.
  - apply renderCityView_sets_weather.
  - by apply renderCityView_keeps.
  - by apply renderCityView_keeps.
  - by apply renderCityView_keeps.
Qed.





(** ** The map adapter *)

Lemma truthy_not_nullish v : truthy v = true → not_nullish v = true.
Proof. by destruct v. Qed.

Lemma truthy_param_default v : truthy v = true → param_default JNull v = v.
Proof. by destruct v. Qed.

Lemma not_nullish_js_nullish a b :
  not_nullish b = true → not_nullish (js_nullish a b) = true.
Proof. by destruct a. Qed.

(** X11. With truthy focus coordinates [updateMapForSensors] clears the
    layer and gives every sensor exactly one marker, in order: at its own
    latitude and longitude where it has them (a coordinate 0 counts as
    present), and at the focus otherwise.  It then centres the map once: on
    the focus at zoom 8 when there is no sensor, else at zoom 10 on the
    first sensor if both of its coordinates are truthy, and on the focus if
    not. *)
Theorem updateMapForSensors_with_focus (ss : list instance) fla flo st :
  truthy fla = true → truthy flo = true →
  let st' := exec (updateMapForSensors ss fla flo) st in
  outcome (updateMapForSensors ss fla flo) st = Ok tt
  ∧ trace st'
    = trace st ++
      match ss with
      | [] => [EvMapClear; EvMapView fla flo 8]
      | first :: _ =>
          [EvMapClear;
           EvMapMarkers
             ((λ s : instance, (js_nullish (lat s) fla, js_nullish (lon s) flo, s))
                <$> ss);
           if truthy (lat first) && truthy (lon first)
           then EvMapView (lat first) (lon first) 10
           else EvMapView fla flo 10]
      end.
Proof.
  intros Hla Hlo st'. subst st'. unfold exec, outcome.
  rewrite updateMapForSensors_run. simpl. split; [done|]. f_equal.
  unfold map_events. rewrite !truthy_param_default by done.
  rewrite Hla, Hlo. simpl.
  destruct ss as [|first rest]; [done|]. f_equal.
  assert (∀ l : list instance,
            omap (marker_of fla flo) l
            = (λ s : instance, (js_nullish (lat s) fla, js_nullish (lon s) flo, s))
                <$> l)
    as Homap.
  { induction l as [|s l IH]; [done|].
    rewrite fmap_cons, <- IH. simpl. unfold marker_of at 1.
    by rewrite !not_nullish_js_nullish by (by apply truthy_not_nullish). }
  rewrite Homap. f_equal. by destruct (_ && _).
Qed.

Lemma updateMapForSensors_with_focus_witness :
  trace (exec (updateMapForSensors [quito_air] (JNum (num_of_Z 48)) (JNum (num_of_Z 2)))
              fresh_page)
  = [EvMapClear;
     EvMapMarkers [(JNum (num_of_Z 0), JNum (num_of_Z (-78)), quito_air)];
     EvMapView (JNum (num_of_Z 48)) (JNum (num_of_Z 2)) 10].
Proof.
  apply (updateMapForSensors_with_focus [quito_air] (JNum (num_of_Z 48))
           (JNum (num_of_Z 2)) fresh_page); reflexivity.
Defined.

(** ** City names that differ in letter case *)

Lemma length_append (a b : string) :
  String.length (a +:+ b) = (String.length a + String.length b)%nat.
Proof. induction a as [|x a IH]; [done|]. rewrite append_cons. simpl. by rewrite IH. Qed.

Lemma append_inj_tail (a b t : string) : a +:+ t = b +:+ t → a = b.
Proof.
  revert b. induction a as [|x a IH]; intros [|y b] H.
  - done.
  - apply (f_equal String.length) in H.
    rewrite append_nil, append_cons in H. simpl in H.
    rewrite length_append in H. lia.
  - apply (f_equal String.length) in H.
    rewrite append_nil, append_cons in H. simpl in H.
    rewrite length_append in H. lia.
  - rewrite !append_cons in H. injection H as -> H. f_equal. by apply IH.
Qed.

Lemma sensorName_inj c1 c2 type : sensorName c1 type = sensorName c2 type → c1 = c2.
Proof. unfold sensorName. apply append_inj_tail. Qed.

Lemma toLowerCase_nil (s : string) : toLowerCase s = "" → s = "".
Proof. by destruct s. Qed.

(** X12. The city filter ignores letter case but the name lookup does not.
    A sensor created under one spelling of the city is shown for a search
    under another spelling, yet unchecking its category there does not
    remove it: it is still in the collection that is written back. *)
Theorem toggle_off_under_other_spelling fetched rnd type st c1 c2 l e :
  selected_city (currentCity st) = Some c2 →
  mapM rehydrate (default [] (localStorage st)) = Ok l →
  e ∈ l →
  named (sensorName c1 type) e →
  city e = JStr c1 →
  toLowerCase c1 = toLowerCase c2 →
  c1 ≠ c2 →
  in_city c2 e = Ok true
  ∧ ∃ l', localStorage (exec (toggleSensor fetched rnd type false) st)
          = Some (stored_records l')
          ∧ e ∈ l'.
Proof.
  intros Hsel Hload He Hnamed Hcity Hlow Hne. split.
  - unfold in_city. rewrite Hcity.
    assert (c1 ≠ "") as Hc1.
    { intros ->. simpl in Hlow. symmetry in Hlow.
      apply toLowerCase_nil in Hlow. subst c2. done. }
    destruct c1 as [|a c1]; [done|]. simpl.
    rewrite bool_decide_eq_true_2; [done|]. exact Hlow.
  - unfold exec. rewrite (toggleSensor_off_run _ _ _ _ _ _ Hsel Hload).
    eexists. split; [apply toggle_commit_storage|].
    destruct (findIndex_named (sensorName c2 type) l) as [i|] eqn:Hfind; [|done].
    destruct (findIndex_named_Some _ _ _ Hfind) as (l1 & x & l2 & -> & <- & _ & Hx).
    rewrite delete_middle.
    apply elem_of_app in He as [He|He]; [apply elem_of_app; by left|].
    apply elem_of_cons in He as [->|He]; [|apply elem_of_app; by right].
    exfalso. apply Hne. eapply sensorName_inj. by eapply named_inj.
Qed.

Lemma toggle_off_under_other_spelling_witness :
  ∃ l', localStorage (exec (toggleSensor None one_half "Air Quality" false)
                           (set_currentCity (Some "paris") paris_air_page))
        = Some (stored_records l')
        ∧ paris_air ∈ l'.
Proof.
  apply (toggle_off_under_other_spelling None one_half "Air Quality"
           (set_currentCity (Some "paris") paris_air_page)
           "Paris" "paris" [paris_air] paris_air).
  - reflexivity.
  - vm_compute. reflexivity.
  - apply list_elem_of_here.
  - reflexivity.
  - reflexivity.
  - reflexivity.
  - discriminate.
Defined.

(** ** Which handlers select a city *)

(** X13. Only a search selects a city.  Toggles, checkbox changes and
    delete clicks leave the selected city as it is; a search with an empty
    field leaves it too, and a search for a city selects that city even
    when the weather request fails. *)
Theorem only_search_selects_city fetched rnd st :
  (∀ type isChecked,
     currentCity (exec (toggleSensor fetched rnd type isChecked) st) = currentCity st)
  ∧ (∀ cat, currentCity (exec (checkbox_change fetched rnd cat) st) = currentCity st)
  ∧ (∀ idx, currentCity (exec (delBtn_click fetched idx) st) = currentCity st)
  ∧ currentCity (exec (fetchWeather_click fetched "") st) = currentCity st
  ∧ (∀ a input, currentCity (exec (fetchWeather_click fetched (String a input)) st)
                = Some (String a input)).
Proof.
  assert (∀ type isChecked st0,
    currentCity (exec (toggleSensor fetched rnd type isChecked) st0) = currentCity st0)
    as Htoggle.
  { intros type isChecked st0.
    destruct (toggleSensor_cases fetched rnd type isChecked st0)
      as [(_ & _ & _ & H)|(cty & l & l' & st1 & _ & _ & Hrun & Hcity & _)]; [done|].
    unfold exec. rewrite Hrun. rewrite <- Hcity.
    apply (toggle_commit_keeps_city cty l' st1). }
  split_and!.
  - intros type isChecked. apply Htoggle.
  - intros cat. unfold exec, checkbox_change.
    erewrite bind_run by reflexivity.
    erewrite bind_run by reflexivity.
    etrans; [apply Htoggle | reflexivity].
  - intros idx. unfold exec. rewrite delBtn_click_run.
    set (st1 := set_localStorage _ _).
    assert (currentCity st1 = currentCity st) as <- by reflexivity.
    destruct (renderManageList st1) as [[[]|] st2] eqn:Hrender.
    + assert (currentCity st2 = currentCity st1) as Hst2.
      { pose proof (renderManageList_keeps currentCity
                      ltac:(done) ltac:(done) ltac:(done) st1) as Hk.
        unfold exec in Hk. by rewrite Hrender in Hk. }
      rewrite (bind_run _ _ _ _ _ Hrender).
      rewrite (bind_run _ _ st2 (currentCity st2) st2) by reflexivity.
      rewrite <- Hst2.
      destruct (currentCity st2) as [[|a cty]|] eqn:Hcc; simpl; try done.
      apply renderCityView_sets_city.
    + assert (currentCity st2 = currentCity st1) as Hst2.
      { pose proof (renderManageList_keeps currentCity
                      ltac:(done) ltac:(done) ltac:(done) st1) as Hk.
        unfold exec in Hk. by rewrite Hrender in Hk. }
      by rewrite (bind_throw _ _ _ _ Hrender).
  - done.
  - intros a input. unfold fetchWeather_click.
    apply renderCityView_sets_city.
Qed.

(** ** The views after a toggle *)








(** ** The city view after a delete *)



(** ** The theme *)

(** X16. The theme preference survives a reload: after a click on the
    toggle, a page that is loaded with the stored item, and whose markup
    does not itself put the class on [body], comes up in the mode the click
    left, without writing the item.  The stored item says "dark" exactly
    when the page is dark after the click, and a second click restores the
    mode. *)
Theorem theme_survives_reload p q :
  theme_item q = theme_item (theme_click p) →
  dark_mode q = false →
  dark_mode (theme_load q) = dark_mode (theme_click p)
  ∧ theme_item (theme_load q) = theme_item q
  ∧ (theme_item (theme_click p) = Some "dark" ↔ dark_mode (theme_click p) = true)
  ∧ dark_mode (theme_click (theme_click p)) = dark_mode p.
Proof.
  intros Hitem Hlight. split_and!.
  - unfold theme_load. rewrite Hitem. unfold theme_click. simpl.
    destruct (dark_mode p); simpl; try case_decide; done.
  - unfold theme_load. by case_decide.
  - unfold theme_click. simpl. destruct (dark_mode p); simpl; split; done.
  - unfold theme_click. simpl. apply negb_involutive.
Qed.

Lemma theme_survives_reload_witness :
  dark_mode (theme_load (mkThemePage (Some "dark") false IconMarkup false [] []))
  = true.
Proof.
  apply (theme_survives_reload light_page
           (mkThemePage (Some "dark") false IconMarkup false [] []));
    reflexivity.
Defined.

Lemma script_init_keeps_collection_witness :
  localStorage (exec script_init paris_air_page) = localStorage paris_air_page.
Proof.
  apply (script_init_keeps_collection paris_air_page). by eexists.
Defined.

(** ** Deleting the row of a sensor that a toggle created *)

Lemma toggle_commit_rowSensors cty allSensors st shown :
  mapM reload allSensors = Ok shown →
  rowSensors (exec (toggle_commit cty allSensors) st) = shown.
Proof.
  intros Hre. unfold toggle_commit, exec.
  rewrite (bind_run _ _ _ _ _ (saveAllSensors_run _ _)).
  set (st1 := set_localStorage _ _).
  assert (mapM rehydrate (default [] (localStorage st1)) = Ok shown)
    as Hl by (simpl; by rewrite load_stored_records).
  rewrite (bind_run _ _ _ _ _ (renderManageList_run st1 _ Hl)).
  match goal with |- rowSensors (snd (?m ?s)) = _ =>
    change (rowSensors (exec m s) = rowSensors s) end.
  apply keeps_bind; [apply keeps_lift | intros filtered].
  apply keeps_bind; [by apply updateChartForSensors_keeps | intros _].
  apply keeps_bind; [apply keeps_gets | intros cw].
  by apply updateMapForSensors_keeps.
Qed.

Lemma delBtn_click_storage fetched idx st :
  localStorage (exec (delBtn_click fetched idx) st)
  = Some (stored_records (delete idx (rowSensors st))).
Proof.
  unfold exec. rewrite delBtn_click_run.
  match goal with |- localStorage (snd (?m ?s)) = _ =>
    change (localStorage (exec m s) = localStorage s) end.
  apply keeps_bind; [apply renderManageList_keeps_storage | intros _].
  apply keeps_bind; [apply keeps_gets | intros cc].
  destruct (selected_city cc); [by apply renderCityView_keeps | apply keeps_ret].
Qed.

(** X17. The delete button of the last row undoes a toggle-on: after a
    toggle has created a sensor, the rows show the old sensors followed by
    the new one, and a click on the delete button of that last row writes
    back the old sensors alone; on a storage written by the script these
    are the sensors that were loaded before the toggle. *)
Theorem delete_last_row_undoes_toggle_on
    fetched fetched' rnd type st cty l w c :
  selected_city (currentCity st) = Some cty →
  mapM rehydrate (default [] (localStorage st)) = Ok l →
  Forall (λ x, ¬ named (sensorName cty type) x) l →
  weather_for st fetched = Some w →
  w_coord w = Some c →
  let st1 := exec (toggleSensor fetched rnd type true) st in
  ∃ kept shown,
    rowSensors st1 = kept ++ [shown]
    ∧ named (sensorName cty type) shown
    ∧ length kept = length l
    ∧ localStorage (exec (delBtn_click fetched' (length l)) st1)
      = Some (stored_records kept)
    ∧ (Forall clean (default [] (localStorage st)) → kept = l).
Proof.
  intros Hsel Hload Hno Hw Hc st1.
  set (new := new_TemperatureSensor (JStr (sensorName cty type))
                (mockData type rnd).1.1 (mockData type rnd).2
                (JStr cty) (coord_lat c) (coord_lon c) (mockData type rnd).1.2).
  destruct (loaded_reload _ _ Hload) as (kept & Hkept & Hnames).
  assert (∃ shown, reload new = Ok shown ∧ named (sensorName cty type) shown)
    as (shown & Hshown & Hnamed).
  { unfold new, new_TemperatureSensor. rewrite reload_Temperature.
    eexists. split; [reflexivity | done]. }
  assert (mapM reload (l ++ [new]) = Ok (kept ++ [shown])) as Hre.
  { apply mapM_result_app; [done|]. by rewrite mapM_result_cons, Hshown. }
  assert (rowSensors st1 = kept ++ [shown]) as Hrows.
  { subst st1. unfold exec.
    rewrite (toggleSensor_on_run _ _ _ _ _ _ _ _ Hsel Hload Hno Hw Hc).
    fold new. by apply toggle_commit_rowSensors. }
  assert (length kept = length l) as Hlen by (by eapply mapM_result_length).
  exists kept, shown. split_and!; try done.
  - rewrite delBtn_click_storage, Hrows, <- Hlen.
    by rewrite delete_middle, app_nil_r.
  - intros Hclean.
    assert (mapM reload l = Ok l) as Hl.
    { apply reload_all_ok_iff. by eapply loaded_all_roundtrip_ok. }
    congruence.
Qed.

Lemma delete_last_row_undoes_toggle_on_witness :
  ∃ kept shown,
    rowSensors (exec (toggleSensor None one_half "Soil Quality" true) paris_air_page)
    = kept ++ [shown]
    ∧ kept = [paris_air]
    ∧ localStorage
        (exec (delBtn_click (Some paris_weather) 1)
           (exec (toggleSensor None one_half "Soil Quality" true) paris_air_page))
      = Some (stored_records kept).
Proof.
  destruct (delete_last_row_undoes_toggle_on None (Some paris_weather) one_half
              "Soil Quality" paris_air_page "Paris" [paris_air] paris_weather
              (mkCoord (JNum (num_of_Z 48)) (JNum (num_of_Z 2))))
    as (kept & shown & Hrows & _ & _ & Hsto & Hkept).
  - reflexivity.
  - vm_compute. reflexivity.
  - repeat constructor. vm_compute. discriminate.
  - reflexivity.
  - reflexivity.
  - exists kept, shown. split_and!; [exact Hrows | | exact Hsto].
    apply Hkept. simpl. apply stored_records_clean.
Defined.
